(** * Announcements router of the High School Management System API

    A shallow embedding of [src/backend/routers/announcements.py] and the
    properties of its five endpoints.

    - Python [str] values are [string]s (sequences of bytes, UTF-8); the
      comparison [<=] of Python and the [$gte] of the document store are the
      lexicographic order on them, [String.leb].
    - A document is a Python [dict]: its ["_id"] entry and a finite map from
      field names to the [str] values the router reads and writes.
    - The two collections live in a [database] value that every endpoint
      threads through; exceptions leave the writes made before them in
      place, as in Python.
    - The clock ([datetime.now()]) and the identifier the driver picks for an
      inserted document are inputs of the endpoints that use them. *)

From Stdlib Require Import String Ascii List Arith Lia Permutation Sorted.
From stdpp Require Import gmap strings list sorting.

#[local] Set Warnings "-abstract-large-number".

Local Open Scope string_scope.
Local Open Scope list_scope.

(** ** [datetime.strptime(s, "%Y-%m-%d")] *)

Module Strptime.

(** The regular expressions [_strptime.TimeRE] builds, with ordered
    alternation and named groups. *)
Inductive regex : Type :=
| Chr (c : ascii)
| Rng (lo hi : ascii)
| Cat (r1 r2 : regex)
| Alt (r1 r2 : regex)
| Group (name : string) (r : regex).

Definition groupdict : Type := list (string * string).

Definition in_range (lo hi a : ascii) : bool :=
  (nat_of_ascii lo <=? nat_of_ascii a)%nat && (nat_of_ascii a <=? nat_of_ascii hi)%nat.

(** Every way [r] matches a prefix of [s], in the order a backtracking
    matcher tries them: the matched text, the groups, and the rest. *)
Fixpoint re_match (r : regex) (s : string) : list (string * groupdict * string) :=
  match r with
  | Chr c =>
      match s with
      | String a s' => if Ascii.eqb a c then [(String a "", [], s')] else []
      | "" => []
      end
  | Rng lo hi =>
      match s with
      | String a s' => if in_range lo hi a then [(String a "", [], s')] else []
      | "" => []
      end
  | Cat r1 r2 =>
      flat_map (fun '(t1, g1, s1) =>
        List.map (fun '(t2, g2, s2) => (t1 +:+ t2, g1 ++ g2, s2)) (re_match r2 s1))
        (re_match r1 s)
  | Alt r1 r2 => re_match r1 s ++ re_match r2 s
  | Group name r =>
      List.map (fun '(t, g, s') => (t, (name, t) :: g, s')) (re_match r s)
  end.

(** [\d] on ASCII text: the ten digits [0] to [9]. On a [str] with
    characters outside ASCII Python's [\d] and [int] also take the decimal
    digits of other scripts, which this model does not: a [Some] of
    [strptime] below is a date Python parses too, whereas a [None] is a
    [ValueError] of Python for ASCII text only ([ascii_only], below). *)
Definition d : regex := Rng "0" "9".

(** ['Y': r"(?P<Y>\d\d\d\d)"] *)
Definition re_Y : regex := Group "Y" (Cat d (Cat d (Cat d d))).

(** ['m': r"(?P<m>1[0-2]|0[1-9]|[1-9])"] *)
Definition re_m : regex :=
  Group "m" (Alt (Cat (Chr "1") (Rng "0" "2"))
            (Alt (Cat (Chr "0") (Rng "1" "9"))
                 (Rng "1" "9"))).

(** ['d': r"(?P<d>3[0-1]|[1-2]\d|0[1-9]|[1-9]| [1-9])"] *)
Definition re_d : regex :=
  Group "d" (Alt (Cat (Chr "3") (Rng "0" "1"))
            (Alt (Cat (Rng "1" "2") d)
            (Alt (Cat (Chr "0") (Rng "1" "9"))
            (Alt (Rng "1" "9")
                 (Cat (Chr " ") (Rng "1" "9")))))).

(** The pattern of the format ["%Y-%m-%d"]. *)
Definition format_regex : regex :=
  Cat re_Y (Cat (Chr "-") (Cat re_m (Cat (Chr "-") re_d))).

Fixpoint lookup_group (name : string) (g : groupdict) : option string :=
  match g with
  | [] => None
  | (n, t) :: g' => if String.eqb n name then Some t else lookup_group name g'
  end.

(** [int(t)] for the texts the groups can hold: leading blanks are
    dropped, then the digits are read in base ten. *)
Fixpoint int_digits (acc : nat) (t : string) : option nat :=
  match t with
  | "" => Some acc
  | String a t' =>
      if in_range "0" "9" a
      then int_digits (10 * acc + (nat_of_ascii a - nat_of_ascii "0"))%nat t'
      else None
  end.

Fixpoint lstrip (t : string) : string :=
  match t with
  | String " " t' => lstrip t'
  | _ => t
  end.

Definition int (t : string) : option nat :=
  match lstrip t with
  | "" => None
  | t' => int_digits 0 t'
  end.

(** [datetime._is_leap] and [datetime._days_in_month]. *)
Definition _is_leap (year : nat) : bool :=
  ((year mod 4 =? 0) && (negb (year mod 100 =? 0) || (year mod 400 =? 0)))%nat.

Definition _days_in_month (year month : nat) : nat :=
  match month with
  | 2 => if _is_leap year then 29 else 28
  | 4 | 6 | 9 | 11 => 30
  | _ => 31
  end%nat.

(** The range checks of [datetime.date(year, month, day)]. *)
(** [datetime.MINYEAR] is 1 and [datetime.MAXYEAR] is 9999. *)
Definition MAXYEAR : nat := 9999.

Definition date_ok (year month day : nat) : bool :=
  ((1 <=? year) && (year <=? MAXYEAR) && (1 <=? month) && (month <=? 12)
   && (1 <=? day) && (day <=? _days_in_month year month))%nat.

(** [datetime.strptime(data_string, "%Y-%m-%d")]: [None] stands for the
    [ValueError] raised when the pattern does not match at the start, when
    text is left over after the match, or when the date does not exist.
    The properties that start from a [None] take ASCII text. *)
Definition strptime (data_string : string) : option (nat * nat * nat) :=
  match re_match format_regex data_string with
  | [] => None
  | (_, found_dict, rest) :: _ =>
      if negb (String.eqb rest "") then None
      else
        match lookup_group "Y" found_dict, lookup_group "m" found_dict,
              lookup_group "d" found_dict with
        | Some y, Some m, Some dd =>
            match int y, int m, int dd with
            | Some year, Some month, Some day =>
                if date_ok year month day then Some (year, month, day) else None
            | _, _, _ => None
            end
        | _, _, _ => None
        end
  end.

End Strptime.

(** ** Documents, exceptions and the [bson.ObjectId] interface *)

(** A document of a collection or of a response: the ["_id"] entry, of type
    [I], and the other entries. The router stores [str] values only. *)
Record document (I : Type) : Type := Document {
  _id : I;
  fields : gmap string string
}.
Arguments Document {I} _ _.
Arguments _id {I} _.
Arguments fields {I} _.

(** What the router uses of [bson.ObjectId]: the constructor from a [str],
    where [None] stands for any exception it raises, and [str(oid)]. *)
Class ObjectIdLib (ObjectId : Type) : Type := {
  ObjectId_eq_dec :: EqDecision ObjectId;
  ObjectId_of_str : string -> option ObjectId;
  str_of_ObjectId : ObjectId -> string
}.

Inductive exn : Type :=
| HTTPException (status_code : nat) (detail : string)
| DuplicateKeyError
| TypeError.

Inductive outcome (A : Type) : Type :=
| Returns (a : A)
| Raises (e : exn).
Arguments Returns {A} a.
Arguments Raises {A} e.

(** Truth value of an [Optional[str]]: [None] and [""] are false. *)
Definition truthy (o : option string) : bool :=
  match o with
  | Some s => negb (String.eqb s "")
  | None => false
  end.

(** [x is not None]; a document that was found is never an empty [dict],
    so this is also its truth value. *)
Definition is_not_None {A : Type} (o : option A) : bool :=
  match o with
  | Some _ => true
  | None => false
  end.

(** [find_one({"_id": id})]: the first document with that ["_id"]. *)
Fixpoint find_one {I : Type} `{EqDecision I} (id : I) (c : list (document I))
  : option (document I) :=
  match c with
  | [] => None
  | x :: c' => if decide (_id x = id) then Some x else find_one id c'
  end.

(** The two update operators the router sends. *)
Inductive update_op : Type :=
| Unset (field : string)
| SetFields (update_doc : gmap string string).

Definition apply_update (u : update_op) (f : gmap string string) : gmap string string :=
  match u with
  | Unset field => delete field f
  | SetFields update_doc => update_doc ∪ f
  end.

(** [update_one({"_id": id}, u)] on the documents of a collection: the first
    match is updated; the second component is [matched_count]. *)
Fixpoint update_first {I : Type} `{EqDecision I} (id : I) (u : update_op)
  (c : list (document I)) : list (document I) * nat :=
  match c with
  | [] => ([], 0%nat)
  | x :: c' =>
      if decide (_id x = id)
      then (Document (_id x) (apply_update u (fields x)) :: c', 1%nat)
      else let '(c'', n) := update_first id u c' in (x :: c'', n)
  end.

(** [delete_one({"_id": id})]: the first match is removed; the second
    component is [deleted_count]. *)
Fixpoint delete_first {I : Type} `{EqDecision I} (id : I) (c : list (document I))
  : list (document I) * nat :=
  match c with
  | [] => ([], 0%nat)
  | x :: c' =>
      if decide (_id x = id)
      then (c', 1%nat)
      else let '(c'', n) := delete_first id c' in (x :: c'', n)
  end.

(** The filter [{field: {"$gte": v}}]: the field is there and [v <= ] it. *)
Definition gte_query {I : Type} (field v : string) (x : document I) : bool :=
  match fields x !! field with
  | Some w => String.leb v w
  | None => false
  end.

(** [l.sort(key=key, reverse=True)]: descending by key, and documents with
    equal keys keep the order they had (the sort is stable). *)
Fixpoint insert_reverse {A : Type} (key : A -> string) (x : A) (l : list A) : list A :=
  match l with
  | [] => [x]
  | y :: l' =>
      if String.ltb (key x) (key y)
      then y :: insert_reverse key x l'
      else x :: y :: l'
  end.

Fixpoint sort_reverse {A : Type} (key : A -> string) (l : list A) : list A :=
  match l with
  | [] => []
  | x :: l' => insert_reverse key x (sort_reverse key l')
  end.

(** ** The router *)

Section Router.

Context {ObjectId : Type} `{!ObjectIdLib ObjectId}.

(** [from ..database import announcements_collection, teachers_collection]:
    teachers are keyed by their username. *)
Record database : Type := Database {
  announcements_collection : list (document ObjectId);
  teachers_collection : list (document string)
}.

(** An endpoint reads and writes the database and returns or raises. *)
Definition endpoint (A : Type) : Type := database -> outcome A * database.

Definition ret {A : Type} (a : A) : endpoint A := fun db => (Returns a, db).

Definition raise {A : Type} (e : exn) : endpoint A := fun db => (Raises e, db).

Definition bind {A B : Type} (c : endpoint A) (k : A -> endpoint B) : endpoint B :=
  fun db =>
    match c db with
    | (Returns a, db') => k a db'
    | (Raises e, db') => (Raises e, db')
    end.

Notation "x <- c ;; k" := (bind c (fun x => k))
  (at level 100, c at next level, right associativity).
Notation "c ;;; k" := (bind c (fun _ => k))
  (at level 100, right associativity).

(** [if not cond: raise e] *)
Definition raise_unless (cond : bool) (e : exn) : endpoint unit :=
  if cond then ret tt else raise e.

(** *** The collections' operations *)

Definition teachers_find_one (username : string) : endpoint (option (document string)) :=
  fun db => (Returns (find_one username (teachers_collection db)), db).

Definition announcements_find (query : document ObjectId -> bool)
  : endpoint (list (document ObjectId)) :=
  fun db => (Returns (List.filter query (announcements_collection db)), db).

Definition announcements_find_one (obj_id : ObjectId)
  : endpoint (option (document ObjectId)) :=
  fun db => (Returns (find_one obj_id (announcements_collection db)), db).

(** [insert_one]: the driver's fresh identifier is [new_id]; the store
    refuses an identifier it already holds. *)
Definition announcements_insert_one (new_id : ObjectId) (doc : gmap string string)
  : endpoint ObjectId :=
  fun db =>
    match find_one new_id (announcements_collection db) with
    | Some _ => (Raises DuplicateKeyError, db)
    | None =>
        (Returns new_id,
         Database (announcements_collection db ++ [Document new_id doc])
                  (teachers_collection db))
    end.

Definition announcements_update_one (obj_id : ObjectId) (u : update_op) : endpoint nat :=
  fun db =>
    let '(c, matched_count) := update_first obj_id u (announcements_collection db) in
    (Returns matched_count, Database c (teachers_collection db)).

Definition announcements_delete_one (obj_id : ObjectId) : endpoint nat :=
  fun db =>
    let '(c, deleted_count) := delete_first obj_id (announcements_collection db) in
    (Returns deleted_count, Database c (teachers_collection db)).

(** [announcement["_id"] = str(announcement["_id"])] *)
Definition str_id (announcement : document ObjectId) : document string :=
  Document (str_of_ObjectId (_id announcement)) (fields announcement).

(** *** [GET /announcements] *)

(** The loop over the documents the query returned. *)
Fixpoint active_loop (current_date : string) (announcements : list (document ObjectId))
  : list (document string) :=
  match announcements with
  | [] => []
  | announcement :: rest =>
      if truthy (fields announcement !! "start_date")
      then
        if String.leb (default "" (fields announcement !! "start_date")) current_date
        then str_id announcement :: active_loop current_date rest
        else active_loop current_date rest
      else str_id announcement :: active_loop current_date rest
  end.

(** [current_date] is [datetime.now().strftime("%Y-%m-%d")]. *)
Definition get_active_announcements (current_date : string)
  : endpoint (list (document string)) :=
  announcements <- announcements_find (gte_query "expiration_date" current_date) ;;
  ret (active_loop current_date announcements).

(** *** [GET /announcements/all] *)

Definition get_all_announcements (username : string)
  : endpoint (list (document string)) :=
  teacher <- teachers_find_one username ;;
  raise_unless (is_not_None teacher)
    (HTTPException 401 "Authentication required") ;;;
  announcements <- announcements_find (fun _ => true) ;;
  let announcements := List.map str_id announcements in
  ret (sort_reverse (fun x => default "" (fields x !! "expiration_date")) announcements).

(** *** [POST /announcements] *)

(** [now_iso] is [datetime.now().isoformat()]. *)
Definition create_announcement (now_iso : string) (new_id : ObjectId)
  (username message expiration_date : string) (start_date : option string)
  : endpoint (document string) :=
  teacher <- teachers_find_one username ;;
  raise_unless (is_not_None teacher)
    (HTTPException 401 "Authentication required") ;;;
  raise_unless (is_not_None (Strptime.strptime expiration_date))
    (HTTPException 400 "Invalid expiration_date format. Use YYYY-MM-DD") ;;;
  (if truthy start_date
   then raise_unless (is_not_None (Strptime.strptime (default "" start_date)))
          (HTTPException 400 "Invalid start_date format. Use YYYY-MM-DD")
   else ret tt) ;;;
  let announcement : gmap string string :=
    {[ "message" := message;
       "expiration_date" := expiration_date;
       "created_by" := username;
       "created_at" := now_iso ]} in
  let announcement :=
    if truthy start_date
    then <["start_date" := default "" start_date]> announcement
    else announcement in
  inserted_id <- announcements_insert_one new_id announcement ;;
  ret (Document (str_of_ObjectId inserted_id) announcement).

(** *** [PUT /announcements/{announcement_id}] *)

Definition update_announcement (now_iso : string)
  (announcement_id username message expiration_date : string)
  (start_date : option string) : endpoint (document string) :=
  teacher <- teachers_find_one username ;;
  raise_unless (is_not_None teacher)
    (HTTPException 401 "Authentication required") ;;;
  match ObjectId_of_str announcement_id with
  | None => raise (HTTPException 400 "Invalid announcement ID")
  | Some obj_id =>
      raise_unless (is_not_None (Strptime.strptime expiration_date))
        (HTTPException 400 "Invalid expiration_date format. Use YYYY-MM-DD") ;;;
      (if truthy start_date
       then raise_unless
              (is_not_None (Strptime.strptime (default "" start_date)))
              (HTTPException 400 "Invalid start_date format. Use YYYY-MM-DD")
       else ret tt) ;;;
      let update_doc : gmap string string :=
        {[ "message" := message;
           "expiration_date" := expiration_date;
           "updated_by" := username;
           "updated_at" := now_iso ]} in
      update_doc <-
        (if truthy start_date
         then ret (<["start_date" := default "" start_date]> update_doc)
         else
           announcements_update_one obj_id (Unset "start_date") ;;;
           ret update_doc) ;;
      matched_count <- announcements_update_one obj_id (SetFields update_doc) ;;
      raise_unless (negb (matched_count =? 0)%nat)
        (HTTPException 404 "Announcement not found") ;;;
      updated_announcement <- announcements_find_one obj_id ;;
      match updated_announcement with
      | None => raise TypeError
      | Some updated_announcement => ret (str_id updated_announcement)
      end
  end.

(** *** [DELETE /announcements/{announcement_id}] *)

Definition delete_announcement (announcement_id username : string)
  : endpoint (gmap string string) :=
  teacher <- teachers_find_one username ;;
  raise_unless (is_not_None teacher)
    (HTTPException 401 "Authentication required") ;;;
  match ObjectId_of_str announcement_id with
  | None => raise (HTTPException 400 "Invalid announcement ID")
  | Some obj_id =>
      deleted_count <- announcements_delete_one obj_id ;;
      raise_unless (negb (deleted_count =? 0)%nat)
        (HTTPException 404 "Announcement not found") ;;;
      ret {[ "message" := "Announcement deleted successfully" ]}
  end.

End Router.

(** ** The specification's words *)

(** "An announcement is active at date D iff [expiration_date >= D] and
    ([start_date] absent or [start_date <= D])", with string comparison. *)
Definition active_at {I : Type} (D : string) (a : document I) : bool :=
  match fields a !! "expiration_date" with
  | Some e => String.leb D e
  | None => false
  end
  &&
  match fields a !! "start_date" with
  | None => true
  | Some s => String.leb s D
  end.

(** The value of a decimal digit. *)
Definition digit_value (a : ascii) : option nat :=
  if Strptime.in_range "0" "9" a then Some (nat_of_ascii a - nat_of_ascii "0")%nat else None.

(** "A calendar date in exact [YYYY-MM-DD] form": four digits, a dash, two
    digits, a dash, two digits, naming a day that exists. *)
Definition exact_YYYY_MM_DD (s : string) : bool :=
  match s with
  | String y1 (String y2 (String y3 (String y4 (String c1
      (String m1 (String m2 (String c2 (String d1 (String d2 ""))))))))) =>
      Ascii.eqb c1 "-" && Ascii.eqb c2 "-" &&
      match digit_value y1, digit_value y2, digit_value y3, digit_value y4,
            digit_value m1, digit_value m2, digit_value d1, digit_value d2 with
      | Some a, Some b, Some c, Some e, Some f, Some g, Some h, Some i =>
          Strptime.date_ok (1000 * a + 100 * b + 10 * c + e) (10 * f + g) (10 * h + i)
      | _, _, _, _, _, _, _, _ => false
      end
  | _ => false
  end.

(** Text of ASCII characters only: every byte is below 128, so that bytes
    and characters coincide and the only decimal digits are [0] to [9]. *)
Fixpoint ascii_only (s : string) : bool :=
  match s with
  | "" => true
  | String a s' => (nat_of_ascii a <? 128)%nat && ascii_only s'
  end.

(** Descending order of the keys. *)
Definition descending {A : Type} (key : A -> string) (a b : A) : Prop :=
  (key b ≤ key a)%string.

(** The sort key of [GET /announcements/all]. *)
Definition expiration_key (x : document string) : string :=
  default "" (fields x !! "expiration_date").

(** A username is registered when the identity store holds its document. *)
Definition registered {ObjectId : Type} (db : @database ObjectId) (username : string) : Prop :=
  is_Some (find_one username (teachers_collection db)).

(** Identifiers are unique in the announcement store. *)
Definition unique_ids {ObjectId : Type} (db : @database ObjectId) : Prop :=
  NoDup (List.map _id (announcements_collection db)).

(** The document [POST] builds before it inserts it, and the update
    document [PUT] builds. *)
Definition new_document (now_iso username message expiration_date : string)
  (start_date : option string) : gmap string string :=
  let announcement : gmap string string :=
    {[ "message" := message;
       "expiration_date" := expiration_date;
       "created_by" := username;
       "created_at" := now_iso ]} in
  if truthy start_date
  then <["start_date" := default "" start_date]> announcement
  else announcement.

Definition update_doc_of (now_iso username message expiration_date : string)
  : gmap string string :=
  {[ "message" := message;
     "expiration_date" := expiration_date;
     "updated_by" := username;
     "updated_at" := now_iso ]}.

(** Past its checks, what is left of [PUT]: the writes, the 404 test and
    the fetch. *)
Definition update_writes {ObjectId : Type} `{!ObjectIdLib ObjectId} (obj_id : ObjectId)
  (update_doc : gmap string string) (start_date : option string)
  : endpoint (document string) :=
  fun db =>
    let c1 :=
      if truthy start_date then announcements_collection db
      else (update_first obj_id (Unset "start_date") (announcements_collection db)).1 in
    let update_doc :=
      if truthy start_date then <["start_date" := default "" start_date]> update_doc
      else update_doc in
    let '(c2, matched_count) := update_first obj_id (SetFields update_doc) c1 in
    let db' := Database c2 (teachers_collection db) in
    if (matched_count =? 0)%nat
    then (Raises (HTTPException 404 "Announcement not found"), db')
    else
      match find_one obj_id c2 with
      | None => (Raises TypeError, db')
      | Some updated_announcement => (Returns (str_id updated_announcement), db')
      end.

(** The least and the greatest number of characters a match of a regular
    expression takes. *)
Fixpoint min_len (r : Strptime.regex) : nat :=
  match r with
  | Strptime.Chr _ | Strptime.Rng _ _ => 1
  | Strptime.Cat r1 r2 => min_len r1 + min_len r2
  | Strptime.Alt r1 r2 => Nat.min (min_len r1) (min_len r2)
  | Strptime.Group _ r => min_len r
  end.

Fixpoint max_len (r : Strptime.regex) : nat :=
  match r with
  | Strptime.Chr _ | Strptime.Rng _ _ => 1
  | Strptime.Cat r1 r2 => max_len r1 + max_len r2
  | Strptime.Alt r1 r2 => Nat.max (max_len r1) (max_len r2)
  | Strptime.Group _ r => max_len r
  end.

(** ** A small database for the examples *)

Module Sample.

Definition is_hex (a : ascii) : bool :=
  Strptime.in_range "0" "9" a || Strptime.in_range "a" "f" a
  || Strptime.in_range "A" "F" a.

(** ASCII white space: blank, [\t], [\n], [\v], [\f] and [\r]. *)
Definition is_space (a : ascii) : bool :=
  (nat_of_ascii a =? 32)%nat || Strptime.in_range "009" "013" a.

Definition lower (a : ascii) : ascii :=
  if Strptime.in_range "A" "F" a then ascii_of_nat (nat_of_ascii a + 32) else a.

(** [bytes.fromhex(s)], the bytes written as lower-case hexadecimal
    digits (what [binascii.hexlify] gives back): white space between the
    pairs of digits is skipped, anything else is a [ValueError]. *)
Fixpoint fromhex (s : string) : option string :=
  match s with
  | "" => Some ""
  | String a s' =>
      if is_space a then fromhex s'
      else if is_hex a then
        match s' with
        | String b s'' =>
            if is_hex b
            then option_map (fun r => String (lower a) (String (lower b) r)) (fromhex s'')
            else None
        | "" => None
        end
      else None
  end.

(** An identifier is the bytes [bson.ObjectId] keeps, here in hexadecimal. *)
Record hex_id : Type := HexId { hex : string }.

Definition hex_id_eq_dec : EqDecision hex_id.
Proof. solve_decision. Defined.

(** [ObjectId(oid)] for a [str]: 24 characters that [bytes.fromhex] reads;
    [str(oid)] is the hexadecimal text of the bytes. *)
#[export] Instance hex_id_lib : ObjectIdLib hex_id := {|
  ObjectId_eq_dec := hex_id_eq_dec;
  ObjectId_of_str s :=
    if (String.length s =? 24)%nat then option_map HexId (fromhex s) else None;
  str_of_ObjectId o := hex o
|}.

Definition id1 : string := "64b7f0a1c2d3e4f5a6b7c8d9".
Definition id2 : string := "64b7f0a1c2d3e4f5a6b7c8da".
Definition id3 : string := "64b7f0a1c2d3e4f5a6b7c8db".
Definition id_new : string := "64b7f0a1c2d3e4f5a6b7c8dc".

Definition doc1 : document hex_id :=
  Document (HexId id1)
    {[ "message" := "Exam week"; "expiration_date" := "2099-06-01";
       "start_date" := "2099-01-01"; "created_by" := "mrodriguez";
       "created_at" := "2024-01-10T08:00:00" ]}.

Definition doc2 : document hex_id :=
  Document (HexId id2)
    {[ "message" := "Old news"; "expiration_date" := "2000-01-01";
       "created_by" := "mrodriguez"; "created_at" := "1999-12-01T08:00:00" ]}.

Definition doc3 : document hex_id :=
  Document (HexId id3)
    {[ "message" := "Open day"; "expiration_date" := "2099-01-01";
       "start_date" := ""; "created_by" := "mchen";
       "created_at" := "2024-02-01T09:30:00" ]}.

Definition db : @database hex_id :=
  Database
    [ doc1; doc2; doc3 ]
    [ Document "mrodriguez" {[ "display_name" := "Ms. Rodriguez"; "role" := "teacher" ]};
      Document "mchen" {[ "display_name" := "Mr. Chen"; "role" := "teacher" ]} ].

Definition now : string := "2024-10-15T10:00:00".

End Sample.

(** * Properties *)

(** ** The date check on some inputs *)

Example strptime_padded : Strptime.strptime "2023-12-31" = Some (2023, 12, 31).
Proof. vm_compute. reflexivity. Qed.
Example strptime_unpadded : Strptime.strptime "2023-1-5" = Some (2023, 1, 5).
Proof. vm_compute. reflexivity. Qed.
Example strptime_blank_day : Strptime.strptime "2023-01- 5" = Some (2023, 1, 5).
Proof. vm_compute. reflexivity. Qed.
Example strptime_free_text : Strptime.strptime "13/2023" = None.
Proof. vm_compute. reflexivity. Qed.
Example strptime_feb30 : Strptime.strptime "2023-02-30" = None.
Proof. vm_compute. reflexivity. Qed.
Example strptime_leap : Strptime.strptime "2024-02-29" = Some (2024, 2, 29).
Proof. vm_compute. reflexivity. Qed.
Example strptime_trailing : Strptime.strptime "2023-12-311" = None.
Proof. vm_compute. reflexivity. Qed.
Example strptime_year0 : Strptime.strptime "0000-01-01" = None.
Proof. vm_compute. reflexivity. Qed.

(** ** Dates in the exact form *)

Section ExactDates.

Import Strptime.

Lemma digit_value_inv (a : ascii) (n : nat) :
  digit_value a = Some n ->
  in_range "0" "9" a = true /\ n = (nat_of_ascii a - nat_of_ascii "0")%nat.
Proof.
  unfold digit_value. destruct (in_range "0" "9" a); [|discriminate].
  intros [= <-]. auto.
Qed.

(** The ten digits. *)
Lemma digit_cases (a : ascii) :
  in_range "0" "9" a = true ->
  In a ["0"; "1"; "2"; "3"; "4"; "5"; "6"; "7"; "8"; "9"]%char.
Proof.
  destruct a as [[] [] [] [] [] [] [] []]; intros H; try discriminate H;
    simpl; auto 11.
Qed.

Lemma lstrip_digit (a : ascii) (t : string) :
  in_range "0" "9" a = true -> lstrip (String a t) = String a t.
Proof.
  intros H. apply digit_cases in H. simpl in H.
  repeat (destruct H as [<-|H]; [reflexivity|]). contradiction.
Qed.

Lemma int_digits_step (acc : nat) (a : ascii) (t : string) :
  in_range "0" "9" a = true ->
  int_digits acc (String a t)
  = int_digits (10 * acc + (nat_of_ascii a - nat_of_ascii "0")) t.
Proof. intros H. simpl. now rewrite H. Qed.

(** A backtracking match of [Cat r1 r2] starts with the first match of
    [r1] whenever [r2] matches after it. *)
Lemma re_match_Cat_head r1 r2 s t1 g1 s1 xs t2 g2 s2 ys :
  re_match r1 s = (t1, g1, s1) :: xs ->
  re_match r2 s1 = (t2, g2, s2) :: ys ->
  exists zs, re_match (Cat r1 r2) s = (t1 +:+ t2, g1 ++ g2, s2) :: zs.
Proof.
  intros H1 H2. simpl. rewrite H1. simpl. rewrite H2. simpl. eauto.
Qed.

Lemma re_match_dash (s : string) : re_match (Chr "-") (String "-" s) = [("-", [], s)].
Proof. reflexivity. Qed.

Lemma re_Y_digits (y1 y2 y3 y4 : ascii) (s : string) :
  in_range "0" "9" y1 = true -> in_range "0" "9" y2 = true ->
  in_range "0" "9" y3 = true -> in_range "0" "9" y4 = true ->
  let Y := String y1 (String y2 (String y3 (String y4 ""))) in
  re_match re_Y (String y1 (String y2 (String y3 (String y4 s)))) = [(Y, [("Y", Y)], s)].
Proof.
  intros H1 H2 H3 H4. unfold re_Y, d.
  cbn [re_match flat_map List.map app].
  rewrite H1. cbn [re_match flat_map List.map app]. rewrite H2.
  cbn [re_match flat_map List.map app]. rewrite H3.
  cbn [re_match flat_map List.map app]. rewrite H4.
  reflexivity.
Qed.

Ltac digit_pairs H1 H2 :=
  apply digit_cases in H1; apply digit_cases in H2; simpl in H1, H2;
  repeat (destruct H1 as [<-|H1]; [|]); try contradiction;
  repeat (destruct H2 as [<-|H2]; [|]); try contradiction.

Lemma re_m_two_digits (m1 m2 : ascii) (s : string) :
  in_range "0" "9" m1 = true -> in_range "0" "9" m2 = true ->
  (1 <= 10 * (nat_of_ascii m1 - nat_of_ascii "0")
        + (nat_of_ascii m2 - nat_of_ascii "0") <= 12)%nat ->
  let M := String m1 (String m2 "") in
  exists xs, re_match re_m (String m1 (String m2 s)) = (M, [("m", M)], s) :: xs.
Proof.
  intros H1 H2 Hm. digit_pairs H1 H2; simpl in Hm; try lia;
    eexists; reflexivity.
Qed.

Lemma re_d_two_digits (d1 d2 : ascii) (s : string) :
  in_range "0" "9" d1 = true -> in_range "0" "9" d2 = true ->
  (1 <= 10 * (nat_of_ascii d1 - nat_of_ascii "0")
        + (nat_of_ascii d2 - nat_of_ascii "0") <= 31)%nat ->
  let D := String d1 (String d2 "") in
  exists xs, re_match re_d (String d1 (String d2 s)) = (D, [("d", D)], s) :: xs.
Proof.
  intros H1 H2 Hd. digit_pairs H1 H2; simpl in Hd; try lia;
    eexists; reflexivity.
Qed.

Lemma int_two_digits (a b : ascii) :
  in_range "0" "9" a = true -> in_range "0" "9" b = true ->
  int (String a (String b ""))
  = Some (10 * (nat_of_ascii a - nat_of_ascii "0") + (nat_of_ascii b - nat_of_ascii "0"))%nat.
Proof.
  intros Ha Hb. unfold int. rewrite (lstrip_digit _ _ Ha).
  rewrite (int_digits_step _ _ _ Ha), (int_digits_step _ _ _ Hb). simpl. f_equal; lia.
Qed.

Lemma int_four_digits (a b c e : ascii) :
  in_range "0" "9" a = true -> in_range "0" "9" b = true ->
  in_range "0" "9" c = true -> in_range "0" "9" e = true ->
  int (String a (String b (String c (String e ""))))
  = Some (1000 * (nat_of_ascii a - nat_of_ascii "0")
          + 100 * (nat_of_ascii b - nat_of_ascii "0")
          + 10 * (nat_of_ascii c - nat_of_ascii "0")
          + (nat_of_ascii e - nat_of_ascii "0"))%nat.
Proof.
  intros Ha Hb Hc He. unfold int. rewrite (lstrip_digit _ _ Ha).
  rewrite (int_digits_step _ _ _ Ha), (int_digits_step _ _ _ Hb),
    (int_digits_step _ _ _ Hc), (int_digits_step _ _ _ He).
  simpl. f_equal; lia.
Qed.

Lemma date_ok_bounds (year month day : nat) :
  date_ok year month day = true -> (1 <= month <= 12 /\ 1 <= day <= 31)%nat.
Proof.
  unfold date_ok. rewrite !andb_true_iff, !Nat.leb_le.
  intros [[[[[_ _] Hm1] Hm2] Hd1] Hd2]. repeat split; try assumption.
  etransitivity; [exact Hd2|]. unfold _days_in_month.
  destruct (_is_leap year);
    do 13 (destruct month as [|month]; [lia|]); lia.
Qed.

(** Every calendar date written in the exact form passes the date check,
    and is read as the date it names. *)
Lemma exact_date_accepted (s : string) :
  exact_YYYY_MM_DD s = true -> exists year month day, strptime s = Some (year, month, day).
Proof.
  unfold exact_YYYY_MM_DD.
  destruct s as [|y1 [|y2 [|y3 [|y4 [|c1 [|m1 [|m2 [|c2 [|d1 [|d2 [|]]]]]]]]]]];
    try discriminate.
  rewrite !andb_true_iff. intros [[Hc1 Hc2] H].
  apply Ascii.eqb_eq in Hc1, Hc2. subst c1 c2.
  destruct (digit_value y1) as [a|] eqn:Ey1; [|discriminate].
  destruct (digit_value y2) as [b|] eqn:Ey2; [|discriminate].
  destruct (digit_value y3) as [c|] eqn:Ey3; [|discriminate].
  destruct (digit_value y4) as [e|] eqn:Ey4; [|discriminate].
  destruct (digit_value m1) as [f|] eqn:Em1; [|discriminate].
  destruct (digit_value m2) as [g|] eqn:Em2; [|discriminate].
  destruct (digit_value d1) as [h|] eqn:Ed1; [|discriminate].
  destruct (digit_value d2) as [i|] eqn:Ed2; [|discriminate].
  apply digit_value_inv in Ey1 as [Hy1 ->], Ey2 as [Hy2 ->], Ey3 as [Hy3 ->],
    Ey4 as [Hy4 ->], Em1 as [Hm1 ->], Em2 as [Hm2 ->], Ed1 as [Hd1 ->], Ed2 as [Hd2 ->].
  destruct (date_ok_bounds _ _ _ H) as [Hm Hd].
  destruct (re_m_two_digits m1 m2 (String "-" (String d1 (String d2 ""))) Hm1 Hm2 Hm)
    as [xm Em].
  destruct (re_d_two_digits d1 d2 "" Hd1 Hd2 Hd) as [xd Ed].
  destruct (re_match_Cat_head _ _ _ _ _ _ _ _ _ _ _ (re_match_dash _) Ed) as [z1 E1].
  destruct (re_match_Cat_head _ _ _ _ _ _ _ _ _ _ _ Em E1) as [z2 E2].
  destruct (re_match_Cat_head _ _ _ _ _ _ _ _ _ _ _ (re_match_dash _) E2) as [z3 E3].
  destruct (re_match_Cat_head _ _ _ _ _ _ _ _ _ _ _
              (re_Y_digits y1 y2 y3 y4 _ Hy1 Hy2 Hy3 Hy4) E3) as [z4 E4].
  unfold strptime, format_regex. rewrite E4.
  cbn [negb String.eqb lookup_group app String.append Ascii.eqb Bool.eqb].
  rewrite (int_four_digits _ _ _ _ Hy1 Hy2 Hy3 Hy4), (int_two_digits _ _ Hm1 Hm2),
    (int_two_digits _ _ Hd1 Hd2), H. eauto.
Qed.

End ExactDates.

(** ** Strings and truth values *)

Lemma leb_empty_l (s : string) : String.leb "" s = true.
Proof. destruct s; reflexivity. Qed.

Lemma leb_empty_r (s : string) : String.leb s "" = true -> s = "".
Proof. destruct s; [reflexivity | discriminate]. Qed.

Lemma ltb_false_leb (s1 s2 : string) : String.ltb s1 s2 = false -> String.leb s2 s1 = true.
Proof.
  unfold String.ltb, String.leb. rewrite (String.compare_antisym s2 s1).
  destruct (String.compare s1 s2); simpl; congruence.
Qed.

Lemma ltb_true_leb (s1 s2 : string) : String.ltb s1 s2 = true -> String.leb s1 s2 = true.
Proof.
  unfold String.ltb, String.leb. destruct (String.compare s1 s2); congruence.
Qed.

Lemma truthy_None_or_empty (o : option string) :
  truthy o = false <-> o = None \/ o = Some "".
Proof.
  destruct o as [s|]; simpl.
  - rewrite negb_false_iff, String.eqb_eq. split.
    + intros ->. now right.
    + intros [H|H]; congruence.
  - split; auto.
Qed.

(** ** Collections *)

Section Collections.

Context {I : Type} `{EqDecision I}.
Implicit Types (c : list (document I)) (x : document I) (id : I).

Lemma find_one_Some id c x : find_one id c = Some x -> In x c /\ _id x = id.
Proof.
  induction c as [|y c IH]; simpl; [discriminate|].
  destruct (decide (_id y = id)) as [E|E].
  - intros [= ->]. auto.
  - intros H'. destruct (IH H'). auto.
Qed.

Lemma find_one_None id c : find_one id c = None <-> forall x, In x c -> _id x <> id.
Proof.
  induction c as [|y c IH]; simpl.
  - split; [intros _ x [] | reflexivity].
  - destruct (decide (_id y = id)) as [E|E].
    + split; [discriminate|]. intros H'. exfalso. apply (H' y); auto.
    + rewrite IH. split.
      * intros H' x [<-|Hx]; auto.
      * intros H' x Hx. apply H'. auto.
Qed.

Lemma find_one_is_Some id c : is_Some (find_one id c) <-> exists x, In x c /\ _id x = id.
Proof.
  split.
  - intros [x Hx]. exists x. now apply find_one_Some.
  - intros (x & Hx & E). destruct (find_one id c) eqn:F; [eauto|].
    exfalso. eapply find_one_None; eauto.
Qed.

(** The first document with a given identifier splits the collection. *)
Lemma find_one_split id c x :
  find_one id c = Some x ->
  exists l1 l2, c = l1 ++ x :: l2 /\ find_one id l1 = None /\ _id x = id.
Proof.
  induction c as [|y c IH]; simpl; [discriminate|].
  destruct (decide (_id y = id)) as [E|E].
  - intros [= ->]. exists [], c. auto.
  - intros H'. destruct (IH H') as (l1 & l2 & -> & F & Ex).
    exists (y :: l1), l2. simpl. destruct (decide (_id y = id)); [contradiction|]. auto.
Qed.

Lemma find_one_app_None id l1 l2 :
  find_one id l1 = None -> find_one id (l1 ++ l2) = find_one id l2.
Proof.
  induction l1 as [|y l1 IH]; simpl; [reflexivity|].
  destruct (decide (_id y = id)); [discriminate | exact IH].
Qed.

Lemma find_one_app_Some id l1 l2 x :
  find_one id l1 = Some x -> find_one id (l1 ++ l2) = Some x.
Proof.
  induction l1 as [|y l1 IH]; simpl; [discriminate|].
  destruct (decide (_id y = id)); [trivial | exact IH].
Qed.

Lemma update_first_None id u c : find_one id c = None -> update_first id u c = (c, 0%nat).
Proof.
  induction c as [|y c IH]; simpl; [reflexivity|].
  destruct (decide (_id y = id)); [discriminate|].
  intros F. now rewrite (IH F).
Qed.

Lemma update_first_split id u l1 x l2 :
  find_one id l1 = None -> _id x = id ->
  update_first id u (l1 ++ x :: l2)
  = (l1 ++ Document (_id x) (apply_update u (fields x)) :: l2, 1%nat).
Proof.
  induction l1 as [|y l1 IH]; simpl; intros F E.
  - destruct (decide (_id x = id)); [reflexivity | contradiction].
  - destruct (decide (_id y = id)); [discriminate|]. now rewrite (IH F E).
Qed.

Lemma delete_first_None id c : find_one id c = None -> delete_first id c = (c, 0%nat).
Proof.
  induction c as [|y c IH]; simpl; [reflexivity|].
  destruct (decide (_id y = id)); [discriminate|].
  intros F. now rewrite (IH F).
Qed.

Lemma delete_first_split id l1 x l2 :
  find_one id l1 = None -> _id x = id ->
  delete_first id (l1 ++ x :: l2) = (l1 ++ l2, 1%nat).
Proof.
  induction l1 as [|y l1 IH]; simpl; intros F E.
  - destruct (decide (_id x = id)); [reflexivity | contradiction].
  - destruct (decide (_id y = id)); [discriminate|]. now rewrite (IH F E).
Qed.

(** With unique identifiers, nothing else carries the removed one. *)
Lemma unique_find_one_rest id l1 x l2 :
  NoDup (List.map _id (l1 ++ x :: l2)) -> _id x = id -> find_one id (l1 ++ l2) = None.
Proof.
  intros ND E. apply find_one_None. intros y Hy Ey.
  rewrite map_app in ND. simpl in ND.
  apply NoDup_app in ND as (_ & Hl1 & [Hl2 _]%NoDup_cons).
  apply in_app_or in Hy as [Hy|Hy].
  - apply (Hl1 (_id y)).
    + apply list_elem_of_In. now apply in_map.
    + rewrite Ey, <- E. left.
  - apply Hl2. rewrite E, <- Ey. apply list_elem_of_In. now apply in_map.
Qed.

End Collections.

(** ** The stable descending sort *)

Section Sorting.

Context {A : Type} (key : A -> string).

Lemma insert_reverse_perm x l : Permutation (insert_reverse key x l) (x :: l).
Proof.
  induction l as [|y l IH]; simpl; [reflexivity|].
  destruct (String.ltb (key x) (key y)); [|reflexivity].
  rewrite IH. apply perm_swap.
Qed.

Lemma sort_reverse_perm l : Permutation (sort_reverse key l) l.
Proof.
  induction l as [|x l IH]; simpl; [reflexivity|].
  rewrite insert_reverse_perm. now rewrite IH.
Qed.

Lemma insert_reverse_sorted x l :
  StronglySorted (descending key) l ->
  StronglySorted (descending key) (insert_reverse key x l).
Proof.
  induction 1 as [|y l Hs IH Hall]; simpl.
  - repeat constructor.
  - destruct (String.ltb (key x) (key y)) eqn:Lt.
    + constructor; [exact IH|].
      rewrite Forall_forall. intros z Hz.
      rewrite insert_reverse_perm in Hz.
      apply elem_of_cons in Hz as [->|Hz].
      * unfold descending, String.le. rewrite (ltb_true_leb _ _ Lt). exact I.
      * rewrite Forall_forall in Hall. auto.
    + assert (Hxy : descending key x y).
      { unfold descending, String.le. rewrite (ltb_false_leb _ _ Lt). exact I. }
      constructor; [now constructor|].
      constructor; [exact Hxy|].
      rewrite Forall_forall in *. intros z Hz.
      unfold descending in *. etransitivity; [apply Hall, Hz | exact Hxy].
Qed.

Lemma sort_reverse_sorted l : StronglySorted (descending key) (sort_reverse key l).
Proof.
  induction l as [|x l IH]; simpl; [constructor|].
  now apply insert_reverse_sorted.
Qed.

(** The sort is stable: the records with a given key come out in the order
    they went in. *)
Lemma insert_reverse_stable k x l :
  List.filter (fun y => String.eqb (key y) k) (insert_reverse key x l)
  = List.filter (fun y => String.eqb (key y) k) (x :: l).
Proof.
  induction l as [|y l IH]; [reflexivity|].
  cbn [insert_reverse]. destruct (String.ltb (key x) (key y)) eqn:Lt; [|reflexivity].
  cbn [List.filter] in *. rewrite IH.
  destruct (String.eqb (key x) k) eqn:Ex, (String.eqb (key y) k) eqn:Ey; try reflexivity.
  apply String.eqb_eq in Ex, Ey. rewrite Ex, Ey in Lt.
  unfold String.ltb in Lt.
  assert (String.compare k k = Eq) as E; [|rewrite E in Lt; discriminate].
  clear. induction k as [|a k IH]; simpl; [reflexivity|].
  unfold Ascii.compare. now rewrite N.compare_refl.
Qed.

Lemma sort_reverse_stable k l :
  List.filter (fun y => String.eqb (key y) k) (sort_reverse key l)
  = List.filter (fun y => String.eqb (key y) k) l.
Proof.
  induction l as [|x l IH]; [reflexivity|].
  cbn [sort_reverse]. rewrite insert_reverse_stable. cbn [List.filter]. now rewrite IH.
Qed.

End Sorting.

(** ** The endpoints *)

Ltac run_endpoint :=
  unfold get_active_announcements, get_all_announcements, create_announcement,
    update_announcement, delete_announcement, bind, raise_unless, ret, raise,
    teachers_find_one, announcements_find, announcements_find_one,
    announcements_insert_one, announcements_update_one, announcements_delete_one;
  simpl.

(** Looking a literal key up in a literal dictionary. *)
Ltac lookup_literal :=
  repeat (rewrite lookup_insert_ne by discriminate);
  first [ apply lookup_insert_eq | apply lookup_singleton_eq
        | apply lookup_singleton_ne; discriminate | apply lookup_empty ].

Section RouterProperties.

Context {ObjectId : Type} `{!ObjectIdLib ObjectId}.
Implicit Types (db : @database ObjectId) (a : document ObjectId).

Lemma registered_find_one db username :
  registered db username ->
  is_not_None (find_one username (teachers_collection db)) = true.
Proof. intros [t ->]. reflexivity. Qed.

Lemma unregistered_find_one db username :
  ~ registered db username ->
  is_not_None (find_one username (teachers_collection db)) = false.
Proof.
  unfold registered. destruct (find_one username (teachers_collection db)); [|reflexivity].
  intros R. exfalso. apply R. eauto.
Qed.

(** The loop of [GET /announcements] keeps the documents of the query
    that are active in the specification's sense. *)
Lemma active_loop_filter (D : string) (c : list (document ObjectId)) :
  active_loop D (List.filter (gte_query "expiration_date" D) c)
  = List.map str_id (List.filter (active_at D) c).
Proof.
  induction c as [|a c IH]; [reflexivity|].
  cbn [List.filter]. unfold active_at at 1.
  destruct (gte_query "expiration_date" D a) eqn:G; unfold gte_query in G; rewrite G.
  - cbn [active_loop andb]. rewrite IH.
    destruct (fields a !! "start_date") as [s|]; cbn [truthy default]; [|reflexivity].
    destruct (String.eqb s "") eqn:Es; cbn [negb].
    + apply String.eqb_eq in Es. subst s. now rewrite leb_empty_l.
    + unfold id. now destruct (String.leb s D).
  - exact IH.
Qed.

(** The invariant in words: the expiration date is there and not before
    [D], and the start date is absent or not after [D]. *)
Lemma active_at_spec {J : Type} (D : string) (x : document J) :
  active_at D x = true <->
  (exists e, fields x !! "expiration_date" = Some e /\ (D ≤ e)%string)
  /\ (fields x !! "start_date" = None
      \/ exists s, fields x !! "start_date" = Some s /\ (s ≤ D)%string).
Proof.
  unfold active_at, String.le. rewrite andb_true_iff. split.
  - intros [He Hs]. split.
    + destruct (fields x !! "expiration_date") as [e|]; [|discriminate].
      exists e. rewrite He. split; [reflexivity | exact I].
    + destruct (fields x !! "start_date") as [s|]; [|now left].
      right. exists s. rewrite Hs. split; [reflexivity | exact I].
  - intros [(e & -> & He) [-> | (s & -> & Hs)]]; split;
      try reflexivity; now apply Is_true_true.
Qed.

(** C1. [GET /announcements] at date [D] returns, in store order, exactly
    the stored announcements whose [expiration_date] is there and [>= D]
    and whose [start_date] is absent or [<= D], both compared as strings,
    with their identifiers as strings; the store is not changed. *)
Theorem list_active_iff db (D : string) :
  exists result,
    get_active_announcements D db = (Returns result, db)
    /\ result = List.map str_id (List.filter (active_at D) (announcements_collection db))
    /\ forall r, In r result <->
         exists a, In a (announcements_collection db) /\ r = str_id a
           /\ (exists e, fields a !! "expiration_date" = Some e /\ (D ≤ e)%string)
           /\ (fields a !! "start_date" = None
               \/ exists s, fields a !! "start_date" = Some s /\ (s ≤ D)%string).
Proof.
  eexists. split; [|split; [reflexivity|]].
  - run_endpoint. now rewrite active_loop_filter.
  - intros r. rewrite in_map_iff. split.
    + intros (a & <- & Ha). apply filter_In in Ha as [Ha Hact].
      exists a. split; [exact Ha|]. split; [reflexivity|]. now apply active_at_spec.
    + intros (a & Ha & -> & Hact). exists a. split; [reflexivity|].
      apply filter_In. split; [exact Ha|]. now apply active_at_spec.
Qed.

(** C5. For a username the identity store does not hold, create, update,
    delete and list_all raise 401 and leave the database as it was,
    whatever the other arguments; list_active takes no username and
    returns a list for every database. *)
Theorem authorization_gate db (username : string)
  (Hun : ~ registered db username) :
  (forall now_iso new_id message expiration_date start_date,
      create_announcement now_iso new_id username message expiration_date start_date db
      = (Raises (HTTPException 401 "Authentication required"), db))
  /\ (forall now_iso announcement_id message expiration_date start_date,
      update_announcement now_iso announcement_id username message expiration_date
        start_date db
      = (Raises (HTTPException 401 "Authentication required"), db))
  /\ (forall announcement_id,
      delete_announcement announcement_id username db
      = (Raises (HTTPException 401 "Authentication required"), db))
  /\ get_all_announcements username db
     = (Raises (HTTPException 401 "Authentication required"), db)
  /\ (forall current_date, exists result,
      get_active_announcements current_date db = (Returns result, db)).
Proof.
  pose proof (unregistered_find_one _ _ Hun) as F.
  repeat split; intros; run_endpoint; rewrite ?F; simpl; try reflexivity.
  eexists. reflexivity.
Qed.

Lemma filter_all {A : Type} (l : list A) : List.filter (fun _ => true) l = l.
Proof. induction l as [|x l IH]; simpl; congruence. Qed.

Lemma get_all_announcements_registered db (username : string) :
  registered db username ->
  get_all_announcements username db
  = (Returns (sort_reverse expiration_key (List.map str_id (announcements_collection db))),
     db).
Proof.
  intros Hreg. pose proof (registered_find_one _ _ Hreg) as F.
  run_endpoint. rewrite F. simpl. now rewrite filter_all.
Qed.

(** C6. For a registered username, [GET /announcements/all] returns every
    stored announcement (a permutation of the store, identifiers as
    strings), in descending order of [expiration_date] compared as
    strings, a missing [expiration_date] counting as the empty string, so
    that only such records can follow one; the store is not changed. *)
Theorem list_all_sorted db (username : string)
  (Hreg : registered db username) :
  exists result,
    get_all_announcements username db = (Returns result, db)
    /\ Permutation result (List.map str_id (announcements_collection db))
    /\ StronglySorted (fun x y => (expiration_key y ≤ expiration_key x)%string) result
    /\ forall l1 x l2, result = l1 ++ x :: l2 ->
         fields x !! "expiration_date" = None ->
         forall y, In y l2 -> expiration_key y = "".
Proof.
  eexists. split; [now apply get_all_announcements_registered|].
  split; [apply sort_reverse_perm|].
  pose proof (sort_reverse_sorted expiration_key
                (List.map str_id (announcements_collection db))) as S.
  split; [exact S|].
  intros l1 x l2 E Hx y Hy.
  rewrite E in S. apply StronglySorted_app_1_r in S.
  apply StronglySorted_inv in S as [_ Hall].
  rewrite Forall_forall in Hall. specialize (Hall y).
  unfold descending in Hall. unfold expiration_key at 2 in Hall. rewrite Hx in Hall.
  simpl in Hall. apply leb_empty_r. apply Is_true_true. apply Hall.
  now apply list_elem_of_In.
Qed.

(** *** Evaluating [PUT] and [DELETE] branch by branch *)

Lemma update_unregistered db now_iso announcement_id username message expiration_date
  start_date :
  ~ registered db username ->
  update_announcement now_iso announcement_id username message expiration_date start_date db
  = (Raises (HTTPException 401 "Authentication required"), db).
Proof.
  intros Hun. run_endpoint. now rewrite (unregistered_find_one _ _ Hun).
Qed.

Lemma update_invalid_id db now_iso announcement_id username message expiration_date
  start_date :
  registered db username ->
  ObjectId_of_str announcement_id = None ->
  update_announcement now_iso announcement_id username message expiration_date start_date db
  = (Raises (HTTPException 400 "Invalid announcement ID"), db).
Proof.
  intros Hreg Hid. run_endpoint. rewrite (registered_find_one _ _ Hreg), Hid. reflexivity.
Qed.

Lemma update_invalid_expiration db now_iso announcement_id username message
  expiration_date start_date obj_id :
  registered db username ->
  ObjectId_of_str announcement_id = Some obj_id ->
  Strptime.strptime expiration_date = None ->
  update_announcement now_iso announcement_id username message expiration_date start_date db
  = (Raises (HTTPException 400 "Invalid expiration_date format. Use YYYY-MM-DD"), db).
Proof.
  intros Hreg Hid Hexp. run_endpoint.
  rewrite (registered_find_one _ _ Hreg), Hid. simpl. rewrite Hexp. reflexivity.
Qed.

Lemma update_invalid_start db now_iso announcement_id username message
  expiration_date start_date obj_id :
  registered db username ->
  ObjectId_of_str announcement_id = Some obj_id ->
  is_Some (Strptime.strptime expiration_date) ->
  truthy start_date = true ->
  Strptime.strptime (default "" start_date) = None ->
  update_announcement now_iso announcement_id username message expiration_date start_date db
  = (Raises (HTTPException 400 "Invalid start_date format. Use YYYY-MM-DD"), db).
Proof.
  intros Hreg Hid [ymd Hexp] Ht Hstart. run_endpoint.
  rewrite (registered_find_one _ _ Hreg), Hid. simpl. rewrite Hexp. simpl.
  rewrite Ht, Hstart. reflexivity.
Qed.

Lemma update_valid db now_iso announcement_id username message expiration_date
  start_date obj_id :
  registered db username ->
  ObjectId_of_str announcement_id = Some obj_id ->
  is_Some (Strptime.strptime expiration_date) ->
  (truthy start_date = true -> is_Some (Strptime.strptime (default "" start_date))) ->
  update_announcement now_iso announcement_id username message expiration_date start_date db
  = update_writes obj_id (update_doc_of now_iso username message expiration_date)
      start_date db.
Proof.
  intros Hreg Hid [ymd Hexp] Hstart. unfold update_writes, update_doc_of. run_endpoint.
  rewrite (registered_find_one _ _ Hreg), Hid. simpl. rewrite Hexp. simpl.
  destruct (truthy start_date) eqn:Ht.
  - destruct (Hstart eq_refl) as [ymd' ->]. simpl.
    destruct (update_first _ _ _) as [c2 n]. simpl.
    destruct n; simpl; [reflexivity|]. now destruct (find_one obj_id c2).
  - simpl.
    destruct (update_first obj_id (Unset "start_date") (announcements_collection db))
      as [c1 n1]. simpl.
    destruct (update_first _ _ c1) as [c2 n]. simpl.
    destruct n; simpl; [reflexivity|]. now destruct (find_one obj_id c2).
Qed.

Lemma database_eta db :
  Database (announcements_collection db) (teachers_collection db) = db.
Proof. now destruct db. Qed.

Lemma update_writes_not_found db obj_id update_doc start_date :
  find_one obj_id (announcements_collection db) = None ->
  update_writes obj_id update_doc start_date db
  = (Raises (HTTPException 404 "Announcement not found"), db).
Proof.
  intros F. unfold update_writes.
  rewrite (update_first_None _ (Unset "start_date") _ F). simpl.
  assert (E : (if truthy start_date then announcements_collection db
               else announcements_collection db) = announcements_collection db)
    by now destruct (truthy start_date).
  rewrite E, (update_first_None _ _ _ F). simpl. now rewrite database_eta.
Qed.

Lemma update_writes_found db obj_id update_doc start_date l1 old l2 :
  announcements_collection db = l1 ++ old :: l2 ->
  find_one obj_id l1 = None -> _id old = obj_id ->
  let new_fields :=
    if truthy start_date
    then <["start_date" := default "" start_date]> update_doc ∪ fields old
    else update_doc ∪ delete "start_date" (fields old) in
  update_writes obj_id update_doc start_date db
  = (Returns (str_id (Document obj_id new_fields)),
     Database (l1 ++ Document obj_id new_fields :: l2) (teachers_collection db)).
Proof.
  intros E F Eid. unfold update_writes. rewrite E.
  destruct (truthy start_date); simpl.
  - rewrite (update_first_split _ _ _ _ _ F Eid). simpl.
    rewrite (find_one_app_None _ _ _ F). simpl. rewrite Eid.
    destruct (decide (obj_id = obj_id)); [reflexivity | contradiction].
  - rewrite (update_first_split _ _ _ _ _ F Eid). simpl.
    rewrite (update_first_split _ _ l1 (Document (_id old) _) l2 F Eid). simpl.
    rewrite (find_one_app_None _ _ _ F). simpl. rewrite Eid.
    destruct (decide (obj_id = obj_id)); [reflexivity | contradiction].
Qed.

Lemma delete_unregistered db announcement_id username :
  ~ registered db username ->
  delete_announcement announcement_id username db
  = (Raises (HTTPException 401 "Authentication required"), db).
Proof.
  intros Hun. run_endpoint. now rewrite (unregistered_find_one _ _ Hun).
Qed.

Lemma delete_invalid_id db announcement_id username :
  registered db username ->
  ObjectId_of_str announcement_id = None ->
  delete_announcement announcement_id username db
  = (Raises (HTTPException 400 "Invalid announcement ID"), db).
Proof.
  intros Hreg Hid. run_endpoint. rewrite (registered_find_one _ _ Hreg), Hid. reflexivity.
Qed.

Lemma delete_not_found db announcement_id username obj_id :
  registered db username ->
  ObjectId_of_str announcement_id = Some obj_id ->
  find_one obj_id (announcements_collection db) = None ->
  delete_announcement announcement_id username db
  = (Raises (HTTPException 404 "Announcement not found"), db).
Proof.
  intros Hreg Hid F. run_endpoint. rewrite (registered_find_one _ _ Hreg), Hid. simpl.
  rewrite (delete_first_None _ _ F). simpl. now rewrite database_eta.
Qed.

Lemma delete_found db announcement_id username obj_id l1 x l2 :
  registered db username ->
  ObjectId_of_str announcement_id = Some obj_id ->
  announcements_collection db = l1 ++ x :: l2 ->
  find_one obj_id l1 = None -> _id x = obj_id ->
  delete_announcement announcement_id username db
  = (Returns {[ "message" := "Announcement deleted successfully" ]},
     Database (l1 ++ l2) (teachers_collection db)).
Proof.
  intros Hreg Hid E F Eid. run_endpoint.
  rewrite (registered_find_one _ _ Hreg), Hid. simpl.
  rewrite E, (delete_first_split _ _ _ _ F Eid). reflexivity.
Qed.

(** *** Evaluating [POST] *)

Lemma create_unregistered db now_iso new_id username message expiration_date start_date :
  ~ registered db username ->
  create_announcement now_iso new_id username message expiration_date start_date db
  = (Raises (HTTPException 401 "Authentication required"), db).
Proof.
  intros Hun. run_endpoint. now rewrite (unregistered_find_one _ _ Hun).
Qed.

Lemma create_invalid_expiration db now_iso new_id username message expiration_date
  start_date :
  registered db username ->
  Strptime.strptime expiration_date = None ->
  create_announcement now_iso new_id username message expiration_date start_date db
  = (Raises (HTTPException 400 "Invalid expiration_date format. Use YYYY-MM-DD"), db).
Proof.
  intros Hreg Hexp. run_endpoint.
  rewrite (registered_find_one _ _ Hreg). simpl. rewrite Hexp. reflexivity.
Qed.

Lemma create_invalid_start db now_iso new_id username message expiration_date start_date :
  registered db username ->
  is_Some (Strptime.strptime expiration_date) ->
  truthy start_date = true ->
  Strptime.strptime (default "" start_date) = None ->
  create_announcement now_iso new_id username message expiration_date start_date db
  = (Raises (HTTPException 400 "Invalid start_date format. Use YYYY-MM-DD"), db).
Proof.
  intros Hreg [ymd Hexp] Ht Hstart. run_endpoint.
  rewrite (registered_find_one _ _ Hreg). simpl. rewrite Hexp. simpl.
  rewrite Ht, Hstart. reflexivity.
Qed.

Lemma create_valid db now_iso new_id username message expiration_date start_date :
  registered db username ->
  is_Some (Strptime.strptime expiration_date) ->
  (truthy start_date = true -> is_Some (Strptime.strptime (default "" start_date))) ->
  find_one new_id (announcements_collection db) = None ->
  let announcement := new_document now_iso username message expiration_date start_date in
  create_announcement now_iso new_id username message expiration_date start_date db
  = (Returns (str_id (Document new_id announcement)),
     Database (announcements_collection db ++ [Document new_id announcement])
              (teachers_collection db)).
Proof.
  intros Hreg [ymd Hexp] Hstart Hfresh. unfold new_document. run_endpoint.
  rewrite (registered_find_one _ _ Hreg). simpl. rewrite Hexp. simpl.
  destruct (truthy start_date) eqn:Ht.
  - destruct (Hstart eq_refl) as [ymd' ->]. simpl. now rewrite Hfresh.
  - simpl. now rewrite Hfresh.
Qed.

(** *** The store keeps identifiers unique *)

Lemma update_first_ids (obj_id : ObjectId) (u : update_op) (c : list (document ObjectId)) :
  List.map _id (update_first obj_id u c).1 = List.map _id c.
Proof.
  induction c as [|x c IH]; simpl; [reflexivity|].
  destruct (decide (_id x = obj_id)); simpl; [reflexivity|].
  destruct (update_first obj_id u c) as [c' k]. simpl in *. now rewrite IH.
Qed.

Lemma delete_first_unique (obj_id : ObjectId) (c : list (document ObjectId)) :
  NoDup (List.map _id c) -> NoDup (List.map _id (delete_first obj_id c).1).
Proof.
  destruct (find_one obj_id c) as [x|] eqn:F.
  - destruct (find_one_split _ _ _ F) as (l1 & l2 & -> & F1 & Eid).
    rewrite (delete_first_split _ _ _ _ F1 Eid). simpl.
    rewrite !map_app. simpl. rewrite !NoDup_app, NoDup_cons.
    intros (H1 & H2 & _ & H3). repeat split; [exact H1 | | exact H3].
    intros y Hy Hy'. apply (H2 y Hy). now right.
  - now rewrite (delete_first_None _ _ F).
Qed.

Lemma insert_fresh_unique (new_id : ObjectId) (doc : gmap string string)
  (c : list (document ObjectId)) :
  find_one new_id c = None -> NoDup (List.map _id c) ->
  NoDup (List.map _id (c ++ [Document new_id doc])).
Proof.
  intros F ND. rewrite map_app. simpl. apply NoDup_app. split; [exact ND|]. split.
  - intros y Hy Hy'. apply list_elem_of_singleton in Hy'. subst y.
    apply list_elem_of_In, in_map_iff in Hy as (x & Ex & Hx).
    exact (proj1 (find_one_None _ _) F x Hx Ex).
  - apply NoDup_singleton.
Qed.

(** Every endpoint, whatever it returns or raises, leaves the identifiers
    of the announcement store unique. *)
Lemma unique_ids_preserved db :
  unique_ids db ->
  (forall D, unique_ids (get_active_announcements D db).2)
  /\ (forall username, unique_ids (get_all_announcements username db).2)
  /\ (forall now_iso new_id username message expiration_date start_date,
        unique_ids (create_announcement now_iso new_id username message expiration_date
                      start_date db).2)
  /\ (forall now_iso announcement_id username message expiration_date start_date,
        unique_ids (update_announcement now_iso announcement_id username message
                      expiration_date start_date db).2)
  /\ (forall announcement_id username,
        unique_ids (delete_announcement announcement_id username db).2).
Proof.
  intros ND. unfold unique_ids in *. repeat split; intros.
  - exact ND.
  - run_endpoint. now destruct (is_not_None _).
  - run_endpoint. destruct (is_not_None (find_one _ _)); [|exact ND]. simpl.
    destruct (is_not_None (Strptime.strptime expiration_date)); [|exact ND]. simpl.
    destruct (truthy start_date); simpl.
    + destruct (is_not_None (Strptime.strptime _)); [|exact ND]. simpl.
      destruct (find_one new_id _) eqn:F; [exact ND|]. simpl.
      now apply insert_fresh_unique.
    + destruct (find_one new_id _) eqn:F; [exact ND|]. simpl.
      now apply insert_fresh_unique.
  - run_endpoint. destruct (is_not_None (find_one _ _)); [|exact ND]. simpl.
    destruct (ObjectId_of_str announcement_id) as [obj_id|]; [|exact ND]. simpl.
    destruct (is_not_None (Strptime.strptime expiration_date)); [|exact ND]. simpl.
    destruct (truthy start_date); simpl.
    + destruct (is_not_None (Strptime.strptime _)); [|exact ND]. simpl.
      pose proof (update_first_ids obj_id
        (SetFields (<["start_date" := default "" start_date]>
           (update_doc_of now_iso username message expiration_date)))
        (announcements_collection db)) as E.
      unfold update_doc_of in E.
      destruct (update_first obj_id _ (announcements_collection db)) as [c2 k].
      simpl in E |- *.
      destruct k; simpl; [now rewrite E|].
      destruct (find_one obj_id c2); simpl; now rewrite E.
    + pose proof (update_first_ids obj_id (Unset "start_date")
                    (announcements_collection db)) as E1.
      destruct (update_first obj_id (Unset "start_date") (announcements_collection db))
        as [c1 k1]. simpl in E1 |- *.
      pose proof (update_first_ids obj_id
        (SetFields (update_doc_of now_iso username message expiration_date)) c1) as E2.
      unfold update_doc_of in E2.
      destruct (update_first obj_id _ c1) as [c2 k]. simpl in E2 |- *.
      destruct k; simpl; [now rewrite E2, E1|].
      destruct (find_one obj_id c2); simpl; now rewrite E2, E1.
  - run_endpoint. destruct (is_not_None (find_one _ _)); [|exact ND]. simpl.
    destruct (ObjectId_of_str announcement_id) as [obj_id|]; [|exact ND]. simpl.
    pose proof (delete_first_unique obj_id _ ND) as E.
    destruct (delete_first obj_id (announcements_collection db)) as [c k].
    simpl in E |- *. now destruct k.
Qed.

(** *** The claims on [PUT], [DELETE] and [POST] *)

(** C3. For a registered user, a well-formed identifier of a stored
    announcement and a valid [expiration_date], update with [start_date]
    omitted returns and stores a record with no [start_date] entry, with
    the new [message] and [expiration_date] and with [updated_by] and
    [updated_at] stamped; the other entries and the other documents are
    as before, and fetching the record again gives the same record. *)
Theorem update_omitted_start_date db now_iso announcement_id username message
  expiration_date obj_id old
  (Hreg : registered db username)
  (Hid : ObjectId_of_str announcement_id = Some obj_id)
  (Hold : find_one obj_id (announcements_collection db) = Some old)
  (Hexp : is_Some (Strptime.strptime expiration_date)) :
  exists new db',
    update_announcement now_iso announcement_id username message expiration_date None db
    = (Returns (str_id new), db')
    /\ _id new = obj_id
    /\ fields new !! "start_date" = None
    /\ fields new !! "message" = Some message
    /\ fields new !! "expiration_date" = Some expiration_date
    /\ fields new !! "updated_by" = Some username
    /\ fields new !! "updated_at" = Some now_iso
    /\ (forall k, ~ In k ["start_date"; "message"; "expiration_date"; "updated_by";
                          "updated_at"] ->
          fields new !! k = fields old !! k)
    /\ announcements_find_one obj_id db' = (Returns (Some new), db')
    /\ teachers_collection db' = teachers_collection db
    /\ exists l1 l2, announcements_collection db = l1 ++ old :: l2
         /\ announcements_collection db' = l1 ++ new :: l2.
Proof.
  destruct (find_one_split _ _ _ Hold) as (l1 & l2 & E & F & Eid).
  rewrite (update_valid _ _ _ _ _ _ None obj_id Hreg Hid Hexp) by discriminate.
  rewrite (update_writes_found _ _ _ None _ _ _ E F Eid). simpl.
  eexists. eexists. split; [reflexivity|]. simpl.
  unfold update_doc_of.
  split; [reflexivity|].
  split.
  { rewrite lookup_union_r by lookup_literal. apply lookup_delete_eq. }
  do 4 (split; [apply lookup_union_Some_l; lookup_literal|]).
  split.
  { intros k Hk. simpl in Hk.
    rewrite lookup_union_r.
    - apply lookup_delete_ne. intros <-. apply Hk. auto.
    - repeat (rewrite lookup_insert_ne; [|intros <-; apply Hk; auto 10]).
      apply lookup_singleton_ne. intros <-. apply Hk. auto 10. }
  split.
  { unfold announcements_find_one. simpl. rewrite (find_one_app_None _ _ _ F). simpl.
    destruct (decide (obj_id = obj_id)); [reflexivity | contradiction]. }
  split; [reflexivity|].
  exists l1, l2. split; [exact E | reflexivity].
Qed.

(** C4 (the code departs from it). ["2024-9-1"] is not a date in the exact
    [YYYY-MM-DD] form, yet a registered user's update of a stored
    announcement with that [expiration_date] is not refused: it returns
    the record, stores the text as the record's [expiration_date] and
    removes its [start_date], so the database is not what it was whenever
    the record had a [start_date]. The date check at fault is the one of
    C2. *)
Theorem update_accepts_unpadded_date db now_iso announcement_id username message
  obj_id old
  (Hreg : registered db username)
  (Hid : ObjectId_of_str announcement_id = Some obj_id)
  (Hold : find_one obj_id (announcements_collection db) = Some old) :
  exact_YYYY_MM_DD "2024-9-1" = false
  /\ exists new db',
       update_announcement now_iso announcement_id username message "2024-9-1" None db
       = (Returns (str_id new), db')
       /\ fields new !! "expiration_date" = Some "2024-9-1"
       /\ fields new !! "start_date" = None
       /\ find_one obj_id (announcements_collection db') = Some new
       /\ (is_Some (fields old !! "start_date") -> db' <> db).
Proof.
  split; [reflexivity|].
  assert (Hexp : is_Some (Strptime.strptime "2024-9-1")) by (vm_compute; eauto).
  destruct (find_one_split _ _ _ Hold) as (l1 & l2 & E & F & Eid).
  rewrite (update_valid _ _ _ _ _ _ None obj_id Hreg Hid Hexp) by discriminate.
  rewrite (update_writes_found _ _ _ None _ _ _ E F Eid). simpl.
  eexists. eexists. split; [reflexivity|]. simpl.
  unfold update_doc_of.
  split; [apply lookup_union_Some_l; lookup_literal|].
  split.
  { rewrite lookup_union_r by lookup_literal. apply lookup_delete_eq. }
  split.
  { rewrite (find_one_app_None _ _ _ F). simpl.
    destruct (decide (obj_id = obj_id)); [reflexivity | contradiction]. }
  intros [v Hv] Hdb.
  apply (f_equal announcements_collection) in Hdb. simpl in Hdb.
  rewrite E in Hdb. apply app_inv_head in Hdb.
  injection Hdb as Hnew.
  apply (f_equal (fun x => fields x !! "start_date")) in Hnew. simpl in Hnew.
  rewrite lookup_union_r in Hnew by lookup_literal.
  rewrite lookup_delete_eq in Hnew. congruence.
Qed.

(** C7. Delete by a registered user: an identifier that does not parse
    gives 400 "Invalid announcement ID"; one that parses and matches no
    record gives 404, the store unchanged; otherwise the first record
    with that identifier is removed, the rest is kept in order, the
    confirmation message is returned, and with unique identifiers no
    record with that identifier is left. *)
Theorem delete_outcomes db announcement_id username
  (Hreg : registered db username) :
  match ObjectId_of_str announcement_id with
  | None =>
      delete_announcement announcement_id username db
      = (Raises (HTTPException 400 "Invalid announcement ID"), db)
  | Some obj_id =>
      match find_one obj_id (announcements_collection db) with
      | None =>
          delete_announcement announcement_id username db
          = (Raises (HTTPException 404 "Announcement not found"), db)
      | Some x =>
          exists l1 l2,
            announcements_collection db = l1 ++ x :: l2
            /\ find_one obj_id l1 = None
            /\ delete_announcement announcement_id username db
               = (Returns {[ "message" := "Announcement deleted successfully" ]},
                  Database (l1 ++ l2) (teachers_collection db))
            /\ (unique_ids db -> find_one obj_id (l1 ++ l2) = None)
      end
  end.
Proof.
  destruct (ObjectId_of_str announcement_id) as [obj_id|] eqn:Hid.
  - destruct (find_one obj_id (announcements_collection db)) as [x|] eqn:F.
    + destruct (find_one_split _ _ _ F) as (l1 & l2 & E & F1 & Eid).
      exists l1, l2. split; [exact E|]. split; [exact F1|]. split.
      * now apply (delete_found _ _ _ obj_id l1 x l2).
      * unfold unique_ids. rewrite E. intros ND.
        now apply (unique_find_one_rest _ _ x).
    + now apply (delete_not_found _ _ _ obj_id).
  - now apply delete_invalid_id.
Qed.

(** C8. For a registered user, valid dates and a fresh identifier, create
    returns the record it stored, with the identifier as a string, with
    [created_by] the username given and [created_at] the time of the
    call; list_all by any registered user then contains that record. *)
Theorem create_then_list_all db now_iso new_id username message expiration_date
  start_date lister
  (Hreg : registered db username)
  (Hexp : is_Some (Strptime.strptime expiration_date))
  (Hstart : truthy start_date = true ->
            is_Some (Strptime.strptime (default "" start_date)))
  (Hfresh : find_one new_id (announcements_collection db) = None)
  (Hlister : registered db lister) :
  exists created db' listing,
    create_announcement now_iso new_id username message expiration_date start_date db
    = (Returns created, db')
    /\ _id created = str_of_ObjectId new_id
    /\ fields created !! "created_by" = Some username
    /\ fields created !! "created_at" = Some now_iso
    /\ fields created !! "message" = Some message
    /\ fields created !! "expiration_date" = Some expiration_date
    /\ announcements_collection db'
       = announcements_collection db ++ [Document new_id (fields created)]
    /\ get_all_announcements lister db' = (Returns listing, db')
    /\ In created listing.
Proof.
  pose proof (create_valid db now_iso new_id username message expiration_date
                start_date Hreg Hexp Hstart Hfresh) as Hc. simpl in Hc.
  set (db' := Database (announcements_collection db ++
                [Document new_id
                   (new_document now_iso username message expiration_date start_date)])
                (teachers_collection db)) in *.
  assert (Hlister' : registered db' lister) by exact Hlister.
  eexists. exists db'. eexists.
  split; [exact Hc|]. split; [reflexivity|].
  assert (Hlook : forall k v,
    k <> "start_date" ->
    ({[ "message" := message; "expiration_date" := expiration_date;
        "created_by" := username; "created_at" := now_iso ]} : gmap string string)
      !! k = Some v ->
    new_document now_iso username message expiration_date start_date !! k = Some v).
  { intros k v Hk Hv. unfold new_document. destruct (truthy start_date); [|exact Hv].
    rewrite lookup_insert_ne by congruence. exact Hv. }
  do 4 (split; [apply Hlook; [discriminate | lookup_literal]|]).
  split; [reflexivity|].
  split; [now apply get_all_announcements_registered|].
  apply (Permutation_in _ (Permutation_sym (sort_reverse_perm _ _))).
  apply in_map_iff. eexists. split; [|apply in_or_app; right; left; reflexivity].
  reflexivity.
Qed.

(** C9. An empty [start_date] counts as none. For a registered user and a
    valid [expiration_date]: create with [start_date=""] succeeds, though
    [""] is no date, and stores no [start_date] entry; update with
    [start_date=""] removes the entry the record had; and list_active
    includes an unexpired record whose [start_date] is [""]. *)
Theorem empty_start_date_is_absent db now_iso username message expiration_date
  (Hreg : registered db username)
  (Hexp : is_Some (Strptime.strptime expiration_date)) :
  Strptime.strptime "" = None
  /\ (forall new_id,
        find_one new_id (announcements_collection db) = None ->
        exists created,
          create_announcement now_iso new_id username message expiration_date (Some "") db
          = (Returns created,
             Database (announcements_collection db ++ [Document new_id (fields created)])
                      (teachers_collection db))
          /\ fields created !! "start_date" = None)
  /\ (forall announcement_id obj_id old,
        ObjectId_of_str announcement_id = Some obj_id ->
        find_one obj_id (announcements_collection db) = Some old ->
        exists new db',
          update_announcement now_iso announcement_id username message expiration_date
            (Some "") db
          = (Returns (str_id new), db')
          /\ fields new !! "start_date" = None
          /\ find_one obj_id (announcements_collection db') = Some new)
  /\ (forall D a e,
        In a (announcements_collection db) ->
        fields a !! "start_date" = Some "" ->
        fields a !! "expiration_date" = Some e -> (D ≤ e)%string ->
        exists result,
          get_active_announcements D db = (Returns result, db)
          /\ In (str_id a) result).
Proof.
  split; [reflexivity|]. split; [|split].
  - intros new_id Hfresh.
    exists (str_id (Document new_id
              (new_document now_iso username message expiration_date (Some "")))).
    split.
    + apply (create_valid db now_iso new_id username message expiration_date (Some "")
               Hreg Hexp); [discriminate | exact Hfresh].
    + simpl. unfold new_document. simpl. lookup_literal.
  - intros announcement_id obj_id old Hid Hold.
    destruct (find_one_split _ _ _ Hold) as (l1 & l2 & E & F & Eid).
    rewrite (update_valid _ _ _ _ _ _ (Some "") obj_id Hreg Hid Hexp) by discriminate.
    rewrite (update_writes_found _ _ _ (Some "") _ _ _ E F Eid). simpl.
    eexists. eexists. split; [reflexivity|]. simpl. split.
    + unfold update_doc_of. rewrite lookup_union_r by lookup_literal.
      apply lookup_delete_eq.
    + rewrite (find_one_app_None _ _ _ F). simpl.
      destruct (decide (obj_id = obj_id)); [reflexivity | contradiction].
  - intros D a e Ha Hs He Hle. eexists. split.
    + run_endpoint. now rewrite active_loop_filter.
    + apply in_map. apply filter_In. split; [exact Ha|].
      unfold active_at. rewrite He, Hs, leb_empty_l.
      apply Is_true_true in Hle. now rewrite Hle.
Qed.

(** An [HTTPException] of [PUT] or [DELETE] leaves the database as it
    was. *)
Lemma update_error_unchanged db now_iso announcement_id username message
  expiration_date start_date status detail db' :
  update_announcement now_iso announcement_id username message expiration_date
    start_date db = (Raises (HTTPException status detail), db') ->
  db' = db.
Proof.
  destruct (decide (registered db username)) as [Hreg|Hun];
    [|rewrite (update_unregistered _ _ _ _ _ _ _ Hun); congruence].
  destruct (ObjectId_of_str announcement_id) as [obj_id|] eqn:Hid;
    [|rewrite (update_invalid_id _ _ _ _ _ _ _ Hreg Hid); congruence].
  destruct (Strptime.strptime expiration_date) as [ymd|] eqn:Hexp;
    [|rewrite (update_invalid_expiration _ _ _ _ _ _ _ _ Hreg Hid Hexp); congruence].
  assert (Hexp' : is_Some (Strptime.strptime expiration_date)) by (rewrite Hexp; eauto).
  destruct (truthy start_date) eqn:Ht.
  - destruct (Strptime.strptime (default "" start_date)) as [ymd'|] eqn:Hstart;
      [|rewrite (update_invalid_start _ _ _ _ _ _ _ _ Hreg Hid Hexp' Ht Hstart);
        congruence].
    rewrite (update_valid _ _ _ _ _ _ _ obj_id Hreg Hid Hexp')
      by (intros _; eauto).
    destruct (find_one obj_id (announcements_collection db)) as [old|] eqn:F.
    + destruct (find_one_split _ _ _ F) as (l1 & l2 & E & F1 & Eid).
      rewrite (update_writes_found _ _ _ _ _ _ _ E F1 Eid). discriminate.
    + rewrite (update_writes_not_found _ _ _ _ F). congruence.
  - rewrite (update_valid _ _ _ _ _ _ _ obj_id Hreg Hid Hexp')
      by (rewrite Ht; discriminate).
    destruct (find_one obj_id (announcements_collection db)) as [old|] eqn:F.
    + destruct (find_one_split _ _ _ F) as (l1 & l2 & E & F1 & Eid).
      rewrite (update_writes_found _ _ _ _ _ _ _ E F1 Eid). discriminate.
    + rewrite (update_writes_not_found _ _ _ _ F). congruence.
Qed.

Lemma delete_error_unchanged db announcement_id username status detail db' :
  delete_announcement announcement_id username db
  = (Raises (HTTPException status detail), db') ->
  db' = db.
Proof.
  destruct (decide (registered db username)) as [Hreg|Hun];
    [|rewrite (delete_unregistered _ _ _ Hun); congruence].
  destruct (ObjectId_of_str announcement_id) as [obj_id|] eqn:Hid;
    [|rewrite (delete_invalid_id _ _ _ Hreg Hid); congruence].
  destruct (find_one obj_id (announcements_collection db)) as [x|] eqn:F.
  - destruct (find_one_split _ _ _ F) as (l1 & l2 & E & F1 & Eid).
    rewrite (delete_found _ _ _ obj_id l1 x l2 Hreg Hid E F1 Eid). discriminate.
  - rewrite (delete_not_found _ _ _ obj_id Hreg Hid F). congruence.
Qed.

(** A date error of [PUT] comes from a registered user with a well-formed
    identifier. *)
Lemma update_date_error_inv db now_iso announcement_id username message expiration_date
  start_date detail db' :
  update_announcement now_iso announcement_id username message expiration_date
    start_date db = (Raises (HTTPException 400 detail), db') ->
  detail = "Invalid expiration_date format. Use YYYY-MM-DD"
  \/ detail = "Invalid start_date format. Use YYYY-MM-DD" ->
  registered db username /\ is_Some (ObjectId_of_str announcement_id).
Proof.
  intros Hu Hd.
  destruct (decide (registered db username)) as [Hreg|Hun];
    [|rewrite (update_unregistered _ _ _ _ _ _ _ Hun) in Hu; discriminate].
  split; [exact Hreg|].
  destruct (ObjectId_of_str announcement_id) as [obj_id|] eqn:Hid; [eauto|].
  rewrite (update_invalid_id _ _ _ _ _ _ _ Hreg Hid) in Hu.
  injection Hu as <- _. destruct Hd; discriminate.
Qed.

(** C10. In update and delete an unknown username gives 401 whatever the
    other arguments; with a known username an identifier that does not
    parse gives 400 "Invalid announcement ID" whatever the dates; a date
    error of update therefore comes with a well-formed identifier; and
    whenever either endpoint raises an HTTP error the database is as it
    was before the call. *)
Theorem error_precedence db now_iso announcement_id username message expiration_date
  start_date :
  (~ registered db username ->
     update_announcement now_iso announcement_id username message expiration_date
       start_date db
     = (Raises (HTTPException 401 "Authentication required"), db)
     /\ delete_announcement announcement_id username db
        = (Raises (HTTPException 401 "Authentication required"), db))
  /\ (registered db username -> ObjectId_of_str announcement_id = None ->
      update_announcement now_iso announcement_id username message expiration_date
        start_date db
      = (Raises (HTTPException 400 "Invalid announcement ID"), db)
      /\ delete_announcement announcement_id username db
         = (Raises (HTTPException 400 "Invalid announcement ID"), db))
  /\ (forall detail db',
        update_announcement now_iso announcement_id username message expiration_date
          start_date db = (Raises (HTTPException 400 detail), db') ->
        detail = "Invalid expiration_date format. Use YYYY-MM-DD"
        \/ detail = "Invalid start_date format. Use YYYY-MM-DD" ->
        registered db username /\ is_Some (ObjectId_of_str announcement_id))
  /\ (forall status detail db',
        update_announcement now_iso announcement_id username message expiration_date
          start_date db = (Raises (HTTPException status detail), db')
        \/ delete_announcement announcement_id username db
           = (Raises (HTTPException status detail), db') ->
        db' = db).
Proof.
  split; [|split; [|split]].
  - intros Hun. split; [now apply update_unregistered | now apply delete_unregistered].
  - intros Hreg Hid. split; [now apply update_invalid_id | now apply delete_invalid_id].
  - intros detail db'. apply update_date_error_inv.
  - intros status detail db' [Hu|Hd].
    + eapply update_error_unchanged, Hu.
    + eapply delete_error_unchanged, Hd.
Qed.

(** C2 (the code departs from it). The date check accepts ["2024-9-1"],
    which is not in the exact [YYYY-MM-DD] form: a registered user's create
    with that [expiration_date] stores it, and the record is then listed as
    active on ["2024-10-15"], after the day it names. *)
Theorem create_accepts_unpadded_date db now_iso new_id username message
  (Hreg : registered db username)
  (Hfresh : find_one new_id (announcements_collection db) = None) :
  exact_YYYY_MM_DD "2024-9-1" = false
  /\ Strptime.strptime "2024-9-1" = Some (2024, 9, 1)
  /\ exists created db',
       create_announcement now_iso new_id username message "2024-9-1" None db
       = (Returns created, db')
       /\ fields created !! "expiration_date" = Some "2024-9-1"
       /\ In (Document new_id (fields created)) (announcements_collection db')
       /\ exists result,
            get_active_announcements "2024-10-15" db' = (Returns result, db')
            /\ In created result.
Proof.
  split; [reflexivity|]. split; [vm_compute; reflexivity|].
  exists (str_id (Document new_id
            (new_document now_iso username message "2024-9-1" None))).
  eexists. split.
  - apply (create_valid db now_iso new_id username message "2024-9-1" None Hreg);
      [vm_compute; eauto | discriminate | exact Hfresh].
  - simpl. split; [unfold new_document; simpl; lookup_literal|].
    split; [apply in_or_app; right; left; reflexivity|].
    eexists. split.
    + run_endpoint. now rewrite active_loop_filter.
    + apply in_map_iff. eexists. split; [|apply filter_In; split].
      * reflexivity.
      * apply in_or_app. right. left. reflexivity.
      * unfold active_at, new_document. simpl.
        rewrite (proj2 (lookup_insert_Some _ _ _ _ _)) by (right; split;
          [discriminate | lookup_literal]).
        rewrite lookup_insert_ne by discriminate.
        rewrite lookup_insert_ne by discriminate.
        rewrite lookup_insert_ne by discriminate.
        rewrite lookup_singleton_ne by discriminate. reflexivity.
Qed.

End RouterProperties.

(** ** More on the endpoints *)

Section MoreRouterProperties.

Context {ObjectId : Type} `{!ObjectIdLib ObjectId}.
Implicit Types (db : @database ObjectId) (a : document ObjectId).

(** *** [PUT]: the record it writes and the records it leaves alone *)

Lemma truthy_Some (s : string) : s <> "" -> truthy (Some s) = true.
Proof.
  intros Hs. simpl. destruct (String.eqb s "") eqn:E; [|reflexivity].
  apply String.eqb_eq in E. contradiction.
Qed.

(** X1. For a registered user, a well-formed identifier of a stored
    announcement and valid dates, update with a non-empty [start_date]
    stores that [start_date] with the new [message] and [expiration_date]
    and the [updated_by]/[updated_at] stamps, keeps every other entry of
    the record ([created_by], [created_at], ...), keeps the record's place
    in the store, and returns the record a later fetch finds. *)
Theorem update_with_start_date db now_iso announcement_id username message
  expiration_date start obj_id old
  (Hreg : registered db username)
  (Hid : ObjectId_of_str announcement_id = Some obj_id)
  (Hold : find_one obj_id (announcements_collection db) = Some old)
  (Hexp : is_Some (Strptime.strptime expiration_date))
  (Hne : start <> "")
  (Hstart : is_Some (Strptime.strptime start)) :
  exists new db',
    update_announcement now_iso announcement_id username message expiration_date
      (Some start) db = (Returns (str_id new), db')
    /\ _id new = obj_id
    /\ fields new !! "start_date" = Some start
    /\ fields new !! "message" = Some message
    /\ fields new !! "expiration_date" = Some expiration_date
    /\ fields new !! "updated_by" = Some username
    /\ fields new !! "updated_at" = Some now_iso
    /\ (forall k, ~ In k ["start_date"; "message"; "expiration_date"; "updated_by";
                          "updated_at"] ->
          fields new !! k = fields old !! k)
    /\ announcements_find_one obj_id db' = (Returns (Some new), db')
    /\ teachers_collection db' = teachers_collection db
    /\ exists l1 l2, announcements_collection db = l1 ++ old :: l2
         /\ announcements_collection db' = l1 ++ new :: l2.
Proof.
  destruct (find_one_split _ _ _ Hold) as (l1 & l2 & E & F & Eid).
  pose proof (truthy_Some _ Hne) as Ht.
  rewrite (update_valid _ _ _ _ _ _ (Some start) obj_id Hreg Hid Hexp)
    by (intros _; exact Hstart).
  rewrite (update_writes_found _ _ _ (Some start) _ _ _ E F Eid). rewrite Ht.
  eexists. eexists. split; [reflexivity|]. cbn [_id fields default from_option id].
  unfold update_doc_of.
  split; [reflexivity|].
  do 5 (split; [apply lookup_union_Some_l; lookup_literal|]).
  split.
  { intros k Hk. simpl in Hk.
    rewrite lookup_union_r; [reflexivity|].
    repeat (rewrite lookup_insert_ne; [|intros <-; apply Hk; auto 10]).
    apply lookup_singleton_ne. intros <-. apply Hk. auto 10. }
  split.
  { unfold announcements_find_one. simpl. rewrite (find_one_app_None _ _ _ F). simpl.
    destruct (decide (obj_id = obj_id)); [reflexivity | contradiction]. }
  split; [reflexivity|].
  exists l1, l2. split; [exact E | reflexivity].
Qed.

(** X2. For a registered user, a well-formed identifier that no stored
    announcement has, and valid dates, update raises 404 and the database
    is as before: the [$unset] and [$set] it sent matched nothing, and no
    record was created. *)
Theorem update_not_found db now_iso announcement_id username message expiration_date
  start_date obj_id
  (Hreg : registered db username)
  (Hid : ObjectId_of_str announcement_id = Some obj_id)
  (Hexp : is_Some (Strptime.strptime expiration_date))
  (Hstart : truthy start_date = true ->
            is_Some (Strptime.strptime (default "" start_date)))
  (Hnone : find_one obj_id (announcements_collection db) = None) :
  update_announcement now_iso announcement_id username message expiration_date
    start_date db
  = (Raises (HTTPException 404 "Announcement not found"), db).
Proof.
  rewrite (update_valid _ _ _ _ _ _ start_date obj_id Hreg Hid Hexp Hstart).
  now apply update_writes_not_found.
Qed.

(** A document with another identifier keeps its place and its content. *)
Lemma update_first_others (obj_id : ObjectId) (u : update_op)
  (c : list (document ObjectId)) (i : nat) (x : document ObjectId) :
  c !! i = Some x -> _id x <> obj_id -> (update_first obj_id u c).1 !! i = Some x.
Proof.
  revert i. induction c as [|y c IH]; intros i Hi Hx; [discriminate|].
  simpl. destruct (decide (_id y = obj_id)) as [Ey|Ey].
  - destruct i as [|i]; simpl in *; [|exact Hi].
    injection Hi as ->. contradiction.
  - destruct (update_first obj_id u c) as [c' k] eqn:Eu. simpl in *.
    destruct i as [|i]; simpl in *; [exact Hi|]. now apply IH.
Qed.

(** What [PUT] can leave in the store: the collection as it was, or the
    collection after its one or two writes to the given identifier. *)
Lemma update_store_shape db now_iso announcement_id username message expiration_date
  start_date :
  exists c',
    (update_announcement now_iso announcement_id username message expiration_date
       start_date db).2 = Database c' (teachers_collection db)
    /\ (c' = announcements_collection db
        \/ exists obj_id,
             ObjectId_of_str announcement_id = Some obj_id
             /\ ((exists u, c' = (update_first obj_id u (announcements_collection db)).1)
                 \/ (exists u1 u2,
                       c' = (update_first obj_id u2
                               (update_first obj_id u1
                                  (announcements_collection db)).1).1))).
Proof.
  run_endpoint. destruct (is_not_None (find_one _ _)); simpl;
    [|exists (announcements_collection db); split; [now destruct db | now left]].
  destruct (ObjectId_of_str announcement_id) as [obj_id|]; simpl;
    [|exists (announcements_collection db); split; [now destruct db | now left]].
  destruct (is_not_None (Strptime.strptime expiration_date)); simpl;
    [|exists (announcements_collection db); split; [now destruct db | now left]].
  destruct (truthy start_date); simpl.
  - destruct (is_not_None (Strptime.strptime _)); simpl;
    [|exists (announcements_collection db); split; [now destruct db | now left]].
    destruct (update_first obj_id (SetFields _) (announcements_collection db))
      as [c2 k] eqn:E2. simpl.
    assert (Hc2 : exists u, c2 = (update_first obj_id u (announcements_collection db)).1)
      by (eexists; now rewrite E2).
    destruct k; simpl;
      [eexists; split; [reflexivity|]; right; exists obj_id; split; [reflexivity|];
       left; exact Hc2|].
    destruct (find_one obj_id c2); simpl; eexists; (split; [reflexivity|]); right;
      exists obj_id; (split; [reflexivity|]); left; exact Hc2.
  - destruct (update_first obj_id (Unset "start_date") (announcements_collection db))
      as [c1 k1] eqn:E1. simpl.
    destruct (update_first obj_id (SetFields _) c1) as [c2 k] eqn:E2. simpl.
    assert (Hc2 : exists u1 u2,
               c2 = (update_first obj_id u2
                       (update_first obj_id u1 (announcements_collection db)).1).1)
      by (do 2 eexists; rewrite E1; simpl; now rewrite E2).
    destruct k; simpl;
      [eexists; split; [reflexivity|]; right; exists obj_id; split; [reflexivity|];
       right; exact Hc2|].
    destruct (find_one obj_id c2); simpl; eexists; (split; [reflexivity|]); right;
      exists obj_id; (split; [reflexivity|]); right; exact Hc2.
Qed.

(** X3. Whatever its arguments and whatever it returns or raises, update
    leaves the identifiers of the store as they were, in the same order (it
    never inserts, removes or moves a record), and leaves every record
    whose identifier is not the one it was given exactly as it was. *)
Theorem update_keeps_documents db now_iso announcement_id username message
  expiration_date start_date :
  let db' := (update_announcement now_iso announcement_id username message
                expiration_date start_date db).2 in
  List.map _id (announcements_collection db') = List.map _id (announcements_collection db)
  /\ (forall i x,
        announcements_collection db !! i = Some x ->
        ObjectId_of_str announcement_id <> Some (_id x) ->
        announcements_collection db' !! i = Some x).
Proof.
  destruct (update_store_shape db now_iso announcement_id username message
              expiration_date start_date)
    as (c' & -> & [-> | (obj_id & Hid & [(u & ->) | (u1 & u2 & ->)])]);
    simpl; [auto | |].
  - split; [now rewrite update_first_ids|].
    intros i x Hi Hx. apply update_first_others; [assumption | congruence].
  - split; [now rewrite !update_first_ids|].
    intros i x Hi Hx. assert (_id x <> obj_id) by congruence.
    apply update_first_others; [|assumption]. now apply update_first_others.
Qed.

(** X16. An update whose [expiration_date] is ASCII text that the date
    check rejects (such as ["13/2023"]; no date in the exact form is
    rejected) raises and
    leaves the database exactly as it was: no write, and no removal of
    [start_date], comes before the error. The error is the 400 that names
    [expiration_date] when the username is registered and the identifier
    is well formed, and the earlier 401 or 400 "Invalid announcement ID"
    otherwise. *)
Theorem update_invalid_expiration_unchanged db now_iso announcement_id username message
  expiration_date start_date
  (Hascii : ascii_only expiration_date = true)
  (Hbad : Strptime.strptime expiration_date = None) :
  exact_YYYY_MM_DD expiration_date = false
  /\ update_announcement now_iso announcement_id username message expiration_date
       start_date db
     = (Raises
          match find_one username (teachers_collection db),
                ObjectId_of_str announcement_id with
          | None, _ => HTTPException 401 "Authentication required"
          | Some _, None => HTTPException 400 "Invalid announcement ID"
          | Some _, Some _ =>
              HTTPException 400 "Invalid expiration_date format. Use YYYY-MM-DD"
          end, db)
  /\ (registered db username ->
      is_Some (ObjectId_of_str announcement_id) ->
      update_announcement now_iso announcement_id username message expiration_date
        start_date db
      = (Raises (HTTPException 400 "Invalid expiration_date format. Use YYYY-MM-DD"), db)).
Proof.
  split; [|split].
  - destruct (exact_YYYY_MM_DD expiration_date) eqn:Ex; [|reflexivity].
    destruct (exact_date_accepted _ Ex) as (y & m & d & Hs). congruence.
  - destruct (find_one username (teachers_collection db)) as [t|] eqn:Ht.
    + assert (Hreg : registered db username) by (unfold registered; rewrite Ht; eauto).
      destruct (ObjectId_of_str announcement_id) as [obj_id|] eqn:Hid.
      * now apply (update_invalid_expiration _ _ _ _ _ _ _ obj_id).
      * now apply update_invalid_id.
    + apply update_unregistered. unfold registered. rewrite Ht. now intros [t Ht'].
  - intros Hreg [obj_id Hid]. now apply (update_invalid_expiration _ _ _ _ _ _ _ obj_id).
Qed.

(** X5. For a registered user and a well-formed identifier, an update whose
    [expiration_date] is valid and whose [start_date] is non-empty ASCII
    text that the date check rejects raises the 400 that names
    [start_date], and the database
    is as before: the stored record keeps its old entries, its
    [start_date] among them, whether or not a record has the identifier. *)
Theorem update_invalid_start_date_unchanged db now_iso announcement_id username message
  expiration_date start obj_id
  (Hreg : registered db username)
  (Hid : ObjectId_of_str announcement_id = Some obj_id)
  (Hexp : is_Some (Strptime.strptime expiration_date))
  (Hne : start <> "")
  (Hascii : ascii_only start = true)
  (Hbad : Strptime.strptime start = None) :
  update_announcement now_iso announcement_id username message expiration_date
    (Some start) db
  = (Raises (HTTPException 400 "Invalid start_date format. Use YYYY-MM-DD"), db).
Proof.
  apply (update_invalid_start _ _ _ _ _ _ _ obj_id Hreg Hid Hexp (truthy_Some _ Hne) Hbad).
Qed.

(** Writing the same update document over the record it produced changes
    nothing. *)
Lemma new_fields_again (update_doc f : gmap string string) (start_date : option string) :
  let new_fields (g : gmap string string) :=
    if truthy start_date
    then <["start_date" := default "" start_date]> update_doc ∪ g
    else update_doc ∪ delete "start_date" g in
  new_fields (new_fields f) = new_fields f.
Proof.
  intros new_fields. unfold new_fields. destruct (truthy start_date).
  - now rewrite (assoc_L (∪)), (idemp_L (∪)).
  - apply map_eq. intros k.
    destruct (update_doc !! k) as [v|] eqn:Ek.
    + now rewrite !(lookup_union_Some_l _ _ _ _ Ek).
    + rewrite !lookup_union_r by exact Ek.
      destruct (decide (k = "start_date")) as [->|Hk].
      * now rewrite !lookup_delete_eq.
      * rewrite !lookup_delete_ne by congruence.
        rewrite lookup_union_r by exact Ek. now rewrite lookup_delete_ne by congruence.
Qed.

Lemma update_writes_again db obj_id update_doc start_date l1 old l2 :
  announcements_collection db = l1 ++ old :: l2 ->
  find_one obj_id l1 = None -> _id old = obj_id ->
  let r := update_writes obj_id update_doc start_date db in
  update_writes obj_id update_doc start_date r.2 = r.
Proof.
  intros E F Eid.
  rewrite (update_writes_found _ _ _ _ _ _ _ E F Eid). cbn [snd].
  match goal with
  | |- context [Database (l1 ++ Document obj_id ?nf :: l2) ?t] =>
      rewrite (update_writes_found (Database (l1 ++ Document obj_id nf :: l2) t)
                 obj_id update_doc start_date l1 (Document obj_id nf) l2
                 eq_refl F eq_refl)
  end.
  cbn [fields teachers_collection].
  now rewrite (new_fields_again update_doc (fields old) start_date).
Qed.

(** X10. Update is idempotent: sending the same update again, at the same
    clock reading, gives the same outcome and leaves the database the first
    one left, for every argument (errors included). *)
Theorem update_idempotent db now_iso announcement_id username message expiration_date
  start_date :
  let r := update_announcement now_iso announcement_id username message expiration_date
             start_date db in
  update_announcement now_iso announcement_id username message expiration_date
    start_date r.2 = r.
Proof.
  destruct (decide (registered db username)) as [Hreg|Hun];
    [|now rewrite (update_unregistered _ _ _ _ _ _ _ Hun); simpl;
          rewrite (update_unregistered _ _ _ _ _ _ _ Hun)].
  destruct (ObjectId_of_str announcement_id) as [obj_id|] eqn:Hid;
    [|now rewrite (update_invalid_id _ _ _ _ _ _ _ Hreg Hid); simpl;
          rewrite (update_invalid_id _ _ _ _ _ _ _ Hreg Hid)].
  destruct (Strptime.strptime expiration_date) as [ymd|] eqn:Hexp;
    [|now rewrite (update_invalid_expiration _ _ _ _ _ _ _ _ Hreg Hid Hexp); simpl;
          rewrite (update_invalid_expiration _ _ _ _ _ _ _ _ Hreg Hid Hexp)].
  assert (Hexp' : is_Some (Strptime.strptime expiration_date)) by (rewrite Hexp; eauto).
  assert (Hcases : (truthy start_date = true
                    /\ Strptime.strptime (default "" start_date) = None)
                   \/ (truthy start_date = true ->
                       is_Some (Strptime.strptime (default "" start_date)))).
  { destruct (truthy start_date); [|right; discriminate].
    destruct (Strptime.strptime (default "" start_date)); [right; eauto | left; auto]. }
  destruct Hcases as [[Ht Hstart] | Hs];
    [now rewrite (update_invalid_start _ _ _ _ _ _ _ _ Hreg Hid Hexp' Ht Hstart); simpl;
         rewrite (update_invalid_start _ _ _ _ _ _ _ _ Hreg Hid Hexp' Ht Hstart)|].
  intros r. subst r.
  rewrite (update_valid _ _ _ _ _ _ _ obj_id Hreg Hid Hexp' Hs).
  assert (Hreg' : registered
            (update_writes obj_id (update_doc_of now_iso username message expiration_date)
               start_date db).2 username).
  { unfold update_writes, registered in *.
    destruct (update_first obj_id _ _) as [c2 k]. destruct k; simpl; [exact Hreg|].
    now destruct (find_one obj_id c2). }
  rewrite (update_valid _ _ _ _ _ _ _ obj_id Hreg' Hid Hexp' Hs).
  destruct (find_one obj_id (announcements_collection db)) as [old|] eqn:F.
  - destruct (find_one_split _ _ _ F) as (l1 & l2 & E & F1 & Eid).
    apply (update_writes_again _ _ _ _ _ _ _ E F1 Eid).
  - rewrite (update_writes_not_found _ _ _ _ F). cbn [snd].
    now apply update_writes_not_found.
Qed.

(** *** [POST]: its errors, and what follows a create *)

(** X4. For a registered user, create answers an [expiration_date] that is
    ASCII text rejected by the date check with the 400 that names
    [expiration_date], whatever [start_date] is; it answers a valid
    [expiration_date] and a [start_date] that is non-empty ASCII text
    rejected by the date check with the 400 that names [start_date]; and
    whenever it raises an HTTP error nothing was inserted. *)
Theorem create_date_errors db now_iso new_id username message expiration_date start_date
  (Hreg : registered db username) :
  (ascii_only expiration_date = true ->
   Strptime.strptime expiration_date = None ->
     create_announcement now_iso new_id username message expiration_date start_date db
     = (Raises (HTTPException 400 "Invalid expiration_date format. Use YYYY-MM-DD"), db))
  /\ (is_Some (Strptime.strptime expiration_date) ->
      truthy start_date = true ->
      ascii_only (default "" start_date) = true ->
      Strptime.strptime (default "" start_date) = None ->
      create_announcement now_iso new_id username message expiration_date start_date db
      = (Raises (HTTPException 400 "Invalid start_date format. Use YYYY-MM-DD"), db))
  /\ (forall status detail db',
        create_announcement now_iso new_id username message expiration_date start_date db
        = (Raises (HTTPException status detail), db') ->
        db' = db).
Proof.
  split; [intros _; now apply create_invalid_expiration|].
  split; [intros Hexp Ht _; now apply create_invalid_start|].
  intros status detail db'. run_endpoint.
  destruct (is_not_None (find_one _ _)); simpl; [|congruence].
  destruct (is_not_None (Strptime.strptime expiration_date)); simpl; [|congruence].
  destruct (truthy start_date); simpl.
  - destruct (is_not_None (Strptime.strptime _)); simpl; [|congruence].
    destruct (find_one new_id _); simpl; congruence.
  - destruct (find_one new_id _); simpl; congruence.
Qed.

Lemma get_active_announcements_eq db (D : string) :
  get_active_announcements D db
  = (Returns (List.map str_id (List.filter (active_at D) (announcements_collection db))),
     db).
Proof. run_endpoint. now rewrite active_loop_filter. Qed.

Lemma new_document_expiration now_iso username message expiration_date start_date :
  new_document now_iso username message expiration_date start_date !! "expiration_date"
  = Some expiration_date.
Proof.
  unfold new_document. destruct (truthy start_date); lookup_literal.
Qed.

Lemma new_document_start now_iso username message expiration_date start_date :
  new_document now_iso username message expiration_date start_date !! "start_date"
  = if truthy start_date then Some (default "" start_date) else None.
Proof.
  unfold new_document. destruct (truthy start_date); lookup_literal.
Qed.

(** X9. After a create that succeeds, list_active at any date [D] returns
    what it returned before, followed by the created record exactly when
    [D <= expiration_date] and the [start_date] given is absent, empty or
    [<= D] (string comparison); otherwise it returns what it returned
    before. *)
Theorem create_then_list_active db now_iso new_id username message expiration_date
  start_date
  (Hreg : registered db username)
  (Hexp : is_Some (Strptime.strptime expiration_date))
  (Hstart : truthy start_date = true ->
            is_Some (Strptime.strptime (default "" start_date)))
  (Hfresh : find_one new_id (announcements_collection db) = None) :
  exists created db',
    create_announcement now_iso new_id username message expiration_date start_date db
    = (Returns created, db')
    /\ forall D, exists before,
         get_active_announcements D db = (Returns before, db)
         /\ get_active_announcements D db'
            = (Returns
                 (before ++
                    if String.leb D expiration_date
                       && (negb (truthy start_date)
                           || String.leb (default "" start_date) D)
                    then [created] else []),
               db').
Proof.
  eexists. eexists. split; [now apply create_valid|].
  intros D. eexists. split; [apply get_active_announcements_eq|].
  rewrite get_active_announcements_eq. cbn [announcements_collection].
  rewrite List.filter_app, List.map_app. cbn [List.filter].
  assert (Hnew : active_at D
                   (Document new_id
                      (new_document now_iso username message expiration_date start_date))
                 = String.leb D expiration_date
                   && (negb (truthy start_date)
                       || String.leb (default "" start_date) D)).
  { unfold active_at. cbn [fields].
    rewrite new_document_expiration, new_document_start.
    now destruct (truthy start_date). }
  rewrite Hnew. now destruct (_ && _).
Qed.

(** X8. Create and delete undo each other: when the identifier the store
    assigned reads back from its string form, deleting the record a
    successful create returned, by the [_id] in that response, succeeds and
    leaves the database exactly as it was before the create. *)
Theorem create_then_delete db now_iso new_id username message expiration_date start_date
  (Hreg : registered db username)
  (Hexp : is_Some (Strptime.strptime expiration_date))
  (Hstart : truthy start_date = true ->
            is_Some (Strptime.strptime (default "" start_date)))
  (Hfresh : find_one new_id (announcements_collection db) = None)
  (Hround : ObjectId_of_str (str_of_ObjectId new_id) = Some new_id) :
  exists created db',
    create_announcement now_iso new_id username message expiration_date start_date db
    = (Returns created, db')
    /\ delete_announcement (_id created) username db'
       = (Returns {[ "message" := "Announcement deleted successfully" ]}, db).
Proof.
  set (nd := Document new_id
               (new_document now_iso username message expiration_date start_date)).
  set (db' := Database (announcements_collection db ++ [nd]) (teachers_collection db)).
  assert (Hreg' : registered db' username) by exact Hreg.
  exists (str_id nd), db'. split; [now apply create_valid|].
  change (_id (str_id nd)) with (str_of_ObjectId new_id).
  rewrite (delete_found db' (str_of_ObjectId new_id) username new_id
             (announcements_collection db) nd [] Hreg' Hround eq_refl Hfresh eq_refl).
  unfold db'. cbn [teachers_collection]. now rewrite app_nil_r, database_eta.
Qed.

(** *** [DELETE]: what follows it *)

(** X7. In a store with unique identifiers, once a registered user has
    deleted a record no record has its identifier: deleting it again
    raises 404, an update of it with valid dates raises 404, both leaving
    the database as the delete left it, and the store has one record
    fewer. *)
Theorem delete_then_gone db announcement_id username obj_id x
  (Hreg : registered db username)
  (Hid : ObjectId_of_str announcement_id = Some obj_id)
  (Hold : find_one obj_id (announcements_collection db) = Some x)
  (Huniq : unique_ids db) :
  exists db',
    delete_announcement announcement_id username db
    = (Returns {[ "message" := "Announcement deleted successfully" ]}, db')
    /\ find_one obj_id (announcements_collection db') = None
    /\ S (length (announcements_collection db')) = length (announcements_collection db)
    /\ delete_announcement announcement_id username db'
       = (Raises (HTTPException 404 "Announcement not found"), db')
    /\ (forall now_iso message expiration_date start_date,
          is_Some (Strptime.strptime expiration_date) ->
          (truthy start_date = true ->
           is_Some (Strptime.strptime (default "" start_date))) ->
          update_announcement now_iso announcement_id username message expiration_date
            start_date db'
          = (Raises (HTTPException 404 "Announcement not found"), db')).
Proof.
  destruct (find_one_split _ _ _ Hold) as (l1 & l2 & E & F1 & Eid).
  set (db' := Database (l1 ++ l2) (teachers_collection db)).
  assert (Hreg' : registered db' username) by exact Hreg.
  assert (Hgone : find_one obj_id (announcements_collection db') = None).
  { unfold unique_ids in Huniq. rewrite E in Huniq.
    now apply (unique_find_one_rest _ _ x). }
  exists db'. split; [now apply (delete_found _ _ _ obj_id l1 x l2)|].
  split; [exact Hgone|].
  split; [rewrite E; simpl; rewrite !List.length_app; simpl; lia|].
  split; [now apply (delete_not_found _ _ _ obj_id)|].
  intros now_iso message expiration_date start_date Hexp Hstart.
  rewrite (update_valid _ _ _ _ _ _ start_date obj_id Hreg' Hid Hexp Hstart).
  now apply update_writes_not_found.
Qed.

(** *** The two listings *)

Lemma filter_of_map {A B : Type} (f : A -> B) (p : B -> bool) (l : list A) :
  List.filter p (List.map f l) = List.map f (List.filter (fun x => p (f x)) l).
Proof.
  induction l as [|x l IH]; simpl; [reflexivity|].
  destruct (p (f x)); simpl; now rewrite IH.
Qed.

(** X6. For a registered user, list_all lists the records that have the
    same [expiration_date] (a missing one counting as empty) in the order
    the store holds them: the descending sort is stable. *)
Theorem list_all_stable db (username : string)
  (Hreg : registered db username) :
  exists result,
    get_all_announcements username db = (Returns result, db)
    /\ forall k,
         List.filter (fun y => String.eqb (expiration_key y) k) result
         = List.map str_id
             (List.filter
                (fun a => String.eqb (default "" (fields a !! "expiration_date")) k)
                (announcements_collection db)).
Proof.
  eexists. split; [now apply get_all_announcements_registered|].
  intros k. rewrite sort_reverse_stable. apply filter_of_map.
Qed.

(** X12. Every record list_active returns, at any date, is among the
    records list_all returns to a registered user: the public listing
    shows nothing the management listing lacks. *)
Theorem active_subset_all db (username D : string)
  (Hreg : registered db username) :
  exists active all,
    get_active_announcements D db = (Returns active, db)
    /\ get_all_announcements username db = (Returns all, db)
    /\ (forall r, In r active -> In r all)
    /\ length active <= length all.
Proof.
  eexists. eexists. split; [apply get_active_announcements_eq|].
  split; [now apply get_all_announcements_registered|].
  split.
  - intros r Hr. apply (Permutation_in _ (Permutation_sym (sort_reverse_perm _ _))).
    apply in_map_iff in Hr as (a & <- & Ha). apply in_map.
    now apply filter_In in Ha as [Ha _].
  - rewrite (Permutation_length (sort_reverse_perm _ _)), !List.length_map.
    apply List.filter_length_le.
Qed.

(** X11. No endpoint writes the identity store: whatever the arguments and
    the outcome, the teachers collection is the same after the call. *)
Theorem teachers_never_written db :
  (forall D, teachers_collection (get_active_announcements D db).2 = teachers_collection db)
  /\ (forall username,
        teachers_collection (get_all_announcements username db).2 = teachers_collection db)
  /\ (forall now_iso new_id username message expiration_date start_date,
        teachers_collection
          (create_announcement now_iso new_id username message expiration_date
             start_date db).2 = teachers_collection db)
  /\ (forall now_iso announcement_id username message expiration_date start_date,
        teachers_collection
          (update_announcement now_iso announcement_id username message expiration_date
             start_date db).2 = teachers_collection db)
  /\ (forall announcement_id username,
        teachers_collection (delete_announcement announcement_id username db).2
        = teachers_collection db).
Proof.
  split; [|split; [|split; [|split]]]; intros.
  - reflexivity.
  - run_endpoint. now destruct (is_not_None _).
  - run_endpoint. destruct (is_not_None (find_one _ _)); [|reflexivity]. simpl.
    destruct (is_not_None (Strptime.strptime expiration_date)); [|reflexivity]. simpl.
    destruct (truthy start_date); simpl.
    + destruct (is_not_None (Strptime.strptime _)); [|reflexivity]. simpl.
      now destruct (find_one new_id _).
    + now destruct (find_one new_id _).
  - destruct (update_store_shape db now_iso announcement_id username message
                expiration_date start_date) as (c' & -> & _). reflexivity.
  - run_endpoint. destruct (is_not_None (find_one _ _)); [|reflexivity]. simpl.
    destruct (ObjectId_of_str announcement_id) as [obj_id|]; [|reflexivity]. simpl.
    destruct (delete_first obj_id (announcements_collection db)) as [c k]. simpl.
    now destruct k.
Qed.

(** *** The date check: what it takes and what it refuses *)

Lemma length_append (s t : string) :
  String.length (s +:+ t) = (String.length s + String.length t)%nat.
Proof.
  induction s as [|a s IH]; [reflexivity|].
  change (String a s +:+ t) with (String a (s +:+ t)). simpl. now rewrite IH.
Qed.

Lemma append_assoc (s t u : string) : (s +:+ t) +:+ u = s +:+ (t +:+ u).
Proof.
  induction s as [|a s IH]; [reflexivity|].
  change (String a s +:+ t) with (String a (s +:+ t)).
  change (String a (s +:+ t) +:+ u) with (String a ((s +:+ t) +:+ u)).
  change (String a s +:+ (t +:+ u)) with (String a (s +:+ (t +:+ u))).
  now rewrite IH.
Qed.

(** A match takes a prefix of the text, of a length between the bounds of
    the expression, and leaves the rest. *)
Lemma re_match_prefix (r : Strptime.regex) (s t s' : string) (g : Strptime.groupdict) :
  In (t, g, s') (Strptime.re_match r s) ->
  s = t +:+ s' /\ (min_len r <= String.length t <= max_len r)%nat.
Proof.
  revert s t g s'. induction r as [c|lo hi|r1 IH1 r2 IH2|r1 IH1 r2 IH2|name r IH];
    intros s t g s'; simpl.
  - destruct s as [|a s]; [intros []|].
    destruct (Ascii.eqb a c); [|intros []].
    intros [[= <- <- <-]|[]]. simpl. split; [reflexivity | lia].
  - destruct s as [|a s]; [intros []|].
    destruct (Strptime.in_range lo hi a); [|intros []].
    intros [[= <- <- <-]|[]]. simpl. split; [reflexivity | lia].
  - rewrite in_flat_map. intros ([[t1 g1] s1] & H1 & H2).
    apply in_map_iff in H2 as ([[t2 g2] s2] & [= <- <- <-] & H2).
    destruct (IH1 _ _ _ _ H1) as [-> B1]. destruct (IH2 _ _ _ _ H2) as [-> B2].
    rewrite append_assoc, length_append. split; [reflexivity | lia].
  - rewrite in_app_iff. intros [H|H].
    + destruct (IH1 _ _ _ _ H) as [-> B]. split; [reflexivity | lia].
    + destruct (IH2 _ _ _ _ H) as [-> B]. split; [reflexivity | lia].
  - rewrite in_map_iff. intros ([[t1 g1] s1] & [= <- <- <-] & H).
    exact (IH _ _ _ _ H).
Qed.

Lemma append_empty_r (s : string) : s +:+ "" = s.
Proof.
  induction s as [|a s IH]; [reflexivity|].
  change (String a s +:+ "") with (String a (s +:+ "")). now rewrite IH.
Qed.

(** The date check takes no text of fewer than 8 or more than 10
    characters. *)
Lemma strptime_length (s : string) :
  is_Some (Strptime.strptime s) -> (8 <= String.length s <= 10)%nat.
Proof.
  intros [ymd H]. unfold Strptime.strptime in H.
  destruct (Strptime.re_match Strptime.format_regex s)
    as [|[[t found_dict] rest] others] eqn:E; [discriminate|].
  destruct (String.eqb rest "") eqn:Er; [|discriminate]. apply String.eqb_eq in Er.
  subst rest.
  destruct (re_match_prefix Strptime.format_regex s t "" found_dict) as [-> B].
  { rewrite E. now left. }
  rewrite append_empty_r. exact B.
Qed.

(** X13. Create and update refuse any [expiration_date] that is ASCII text
    of fewer than 8 or more than 10 characters, a date followed by a time
    or by blanks included: for a registered user (and, for update, a well-formed
    identifier) the answer is the 400 that names [expiration_date] and the
    database is unchanged. *)
Theorem date_length_bounds db now_iso new_id announcement_id obj_id username message
  expiration_date start_date
  (Hreg : registered db username)
  (Hid : ObjectId_of_str announcement_id = Some obj_id)
  (Hascii : ascii_only expiration_date = true)
  (Hlen : (String.length expiration_date < 8 \/ 10 < String.length expiration_date)%nat) :
  create_announcement now_iso new_id username message expiration_date start_date db
  = (Raises (HTTPException 400 "Invalid expiration_date format. Use YYYY-MM-DD"), db)
  /\ update_announcement now_iso announcement_id username message expiration_date
       start_date db
     = (Raises (HTTPException 400 "Invalid expiration_date format. Use YYYY-MM-DD"), db).
Proof.
  assert (Hbad : Strptime.strptime expiration_date = None).
  { destruct (Strptime.strptime expiration_date) as [ymd|] eqn:E; [|reflexivity].
    assert (B : (8 <= String.length expiration_date <= 10)%nat)
      by (apply strptime_length; rewrite E; eauto).
    lia. }
  split.
  - now apply create_invalid_expiration.
  - now apply (update_invalid_expiration _ _ _ _ _ _ _ obj_id).
Qed.

(** X14. Create accepts every pair of dates written in the exact
    [YYYY-MM-DD] form: for a registered user and a fresh identifier it
    returns and stores a record with that [expiration_date] and that
    [start_date]. *)
Theorem create_accepts_exact_dates db now_iso new_id username message expiration_date
  start
  (Hreg : registered db username)
  (Hfresh : find_one new_id (announcements_collection db) = None)
  (Hexp : exact_YYYY_MM_DD expiration_date = true)
  (Hstart : exact_YYYY_MM_DD start = true) :
  exists created,
    create_announcement now_iso new_id username message expiration_date (Some start) db
    = (Returns created,
       Database (announcements_collection db ++ [Document new_id (fields created)])
                (teachers_collection db))
    /\ _id created = str_of_ObjectId new_id
    /\ fields created !! "expiration_date" = Some expiration_date
    /\ fields created !! "start_date" = Some start.
Proof.
  assert (Hne : start <> "") by (intros ->; discriminate Hstart).
  destruct (exact_date_accepted _ Hexp) as (y & m & d & He).
  destruct (exact_date_accepted _ Hstart) as (y' & m' & d' & Hs).
  exists (str_id (Document new_id
            (new_document now_iso username message expiration_date (Some start)))).
  split.
  - apply create_valid; [exact Hreg | rewrite He; eauto | | exact Hfresh].
    intros _. cbn [default from_option id]. rewrite Hs. eauto.
  - split; [reflexivity|]. cbn [fields str_id].
    rewrite new_document_expiration, new_document_start, (truthy_Some _ Hne).
    split; reflexivity.
Qed.

(** *** [PUT] and the public listing *)

(** X15. After an update that succeeds, whether list_active shows the
    record at a date [D] depends on the new dates only: it is listed, in
    the place of the old record, exactly when [D <= expiration_date] and
    the [start_date] given is absent, empty or [<= D]; the records before
    and after it are listed as before. *)
Theorem update_then_list_active db now_iso announcement_id username message
  expiration_date start_date obj_id old
  (Hreg : registered db username)
  (Hid : ObjectId_of_str announcement_id = Some obj_id)
  (Hold : find_one obj_id (announcements_collection db) = Some old)
  (Hexp : is_Some (Strptime.strptime expiration_date))
  (Hstart : truthy start_date = true ->
            is_Some (Strptime.strptime (default "" start_date))) :
  exists new db',
    update_announcement now_iso announcement_id username message expiration_date
      start_date db = (Returns (str_id new), db')
    /\ forall D, exists before after,
         get_active_announcements D db
         = (Returns (before ++ (if active_at D old then [str_id old] else []) ++ after), db)
         /\ get_active_announcements D db'
            = (Returns
                 (before ++
                  (if String.leb D expiration_date
                      && (negb (truthy start_date)
                          || String.leb (default "" start_date) D)
                   then [str_id new] else []) ++ after),
               db').
Proof.
  destruct (find_one_split _ _ _ Hold) as (l1 & l2 & E & F & Eid).
  rewrite (update_valid _ _ _ _ _ _ start_date obj_id Hreg Hid Hexp Hstart).
  rewrite (update_writes_found _ _ _ start_date _ _ _ E F Eid).
  eexists. eexists. split; [reflexivity|].
  intros D.
  exists (List.map str_id (List.filter (active_at D) l1)),
         (List.map str_id (List.filter (active_at D) l2)).
  rewrite !get_active_announcements_eq. cbn [announcements_collection]. rewrite E.
  rewrite !List.filter_app, !List.map_app. cbn [List.filter].
  split; [now destruct (active_at D old)|].
  match goal with
  | |- context [active_at D (Document obj_id ?nf)] =>
      assert (Hnew : active_at D (Document obj_id nf)
                     = String.leb D expiration_date
                       && (negb (truthy start_date)
                           || String.leb (default "" start_date) D))
  end.
  { unfold active_at, update_doc_of. cbn [fields].
    destruct (truthy start_date).
    - rewrite (lookup_union_Some_l _ _ "expiration_date" expiration_date)
        by lookup_literal.
      rewrite (lookup_union_Some_l _ _ "start_date" (default "" start_date))
        by lookup_literal.
      reflexivity.
    - rewrite (lookup_union_Some_l _ _ "expiration_date" expiration_date)
        by lookup_literal.
      rewrite lookup_union_r by lookup_literal. rewrite lookup_delete_eq.
      now destruct (String.leb D expiration_date). }
  rewrite Hnew. now destruct (_ && _).
Qed.

End MoreRouterProperties.

(** ** The claims on the sample database *)

Section SampleRuns.

Import Sample.

Lemma sample_registered : registered db "mchen".
Proof. eexists. reflexivity. Qed.

Lemma sample_unregistered : ~ registered db "nobody".
Proof. intros [t Ht]. discriminate Ht. Qed.

Lemma sample_id1 : ObjectId_of_str id1 = Some (HexId id1).
Proof. reflexivity. Qed.

Lemma sample_doc1 : find_one (HexId id1) (announcements_collection db) = Some doc1.
Proof. reflexivity. Qed.

Lemma sample_fresh : find_one (HexId id_new) (announcements_collection db) = None.
Proof. reflexivity. Qed.

Lemma sample_not_an_id : @ObjectId_of_str hex_id _ "not-an-id" = None.
Proof. reflexivity. Qed.

Lemma authorization_gate_witness :
  ~ registered db "nobody"
  /\ get_all_announcements "nobody" db
     = (Raises (HTTPException 401 "Authentication required"), db)
  /\ delete_announcement id1 "nobody" db
     = (Raises (HTTPException 401 "Authentication required"), db).
Proof.
  split; [exact sample_unregistered|].
  destruct (authorization_gate db "nobody" sample_unregistered)
    as (_ & _ & Hd & Ha & _).
  split; [exact Ha | exact (Hd id1)].
Defined.

Lemma list_all_sorted_witness :
  registered db "mchen"
  /\ exists result,
       get_all_announcements "mchen" db = (Returns result, db)
       /\ Permutation result (List.map str_id (announcements_collection db))
       /\ StronglySorted (fun x y => (expiration_key y ≤ expiration_key x)%string) result.
Proof.
  split; [exact sample_registered|].
  destruct (list_all_sorted db "mchen" sample_registered) as (r & Hr & Hp & Hs & _).
  exists r. auto.
Defined.

Lemma update_omitted_start_date_witness :
  registered db "mchen"
  /\ ObjectId_of_str id1 = Some (HexId id1)
  /\ find_one (HexId id1) (announcements_collection db) = Some doc1
  /\ is_Some (Strptime.strptime "2099-07-01")
  /\ exists new db',
       update_announcement now id1 "mchen" "Exam week moved" "2099-07-01" None db
       = (Returns (str_id new), db')
       /\ fields new !! "start_date" = None
       /\ announcements_find_one (HexId id1) db' = (Returns (Some new), db').
Proof.
  split; [exact sample_registered|].
  split; [exact sample_id1|]. split; [exact sample_doc1|].
  assert (He : is_Some (Strptime.strptime "2099-07-01")) by (vm_compute; eauto).
  split; [exact He|].
  destruct (update_omitted_start_date db now id1 "mchen" "Exam week moved" "2099-07-01"
              (HexId id1) doc1 sample_registered sample_id1 sample_doc1 He)
    as (new & db' & Hu & _ & Hs & _ & _ & _ & _ & _ & Hf & _).
  exists new, db'. auto.
Defined.

Lemma update_accepts_unpadded_date_witness :
  registered db "mchen"
  /\ ObjectId_of_str id1 = Some (HexId id1)
  /\ find_one (HexId id1) (announcements_collection db) = Some doc1
  /\ fields doc1 !! "start_date" = Some "2099-01-01"
  /\ exact_YYYY_MM_DD "2024-9-1" = false
  /\ exists new db',
       update_announcement now id1 "mchen" "Exam week moved" "2024-9-1" None db
       = (Returns (str_id new), db')
       /\ fields new !! "expiration_date" = Some "2024-9-1"
       /\ fields new !! "start_date" = None
       /\ db' <> db.
Proof.
  assert (Hs : fields doc1 !! "start_date" = Some "2099-01-01") by reflexivity.
  split; [exact sample_registered|]. split; [exact sample_id1|].
  split; [exact sample_doc1|]. split; [exact Hs|].
  destruct (update_accepts_unpadded_date db now id1 "mchen" "Exam week moved"
              (HexId id1) doc1 sample_registered sample_id1 sample_doc1)
    as (Hx & new & db' & Hu & He & Hn & _ & Hd).
  split; [exact Hx|]. exists new, db'.
  split; [exact Hu|]. split; [exact He|]. split; [exact Hn|].
  apply Hd. rewrite Hs. eauto.
Defined.

Lemma delete_outcomes_witness :
  registered db "mchen"
  /\ delete_announcement "not-an-id" "mchen" db
     = (Raises (HTTPException 400 "Invalid announcement ID"), db)
  /\ delete_announcement id_new "mchen" db
     = (Raises (HTTPException 404 "Announcement not found"), db)
  /\ exists l1 l2,
       announcements_collection db = l1 ++ doc2 :: l2
       /\ delete_announcement id2 "mchen" db
          = (Returns {[ "message" := "Announcement deleted successfully" ]},
             Database (l1 ++ l2) (teachers_collection db)).
Proof.
  split; [exact sample_registered|].
  split; [exact (delete_outcomes db "not-an-id" "mchen" sample_registered)|].
  split; [exact (delete_outcomes db id_new "mchen" sample_registered)|].
  destruct (delete_outcomes db id2 "mchen" sample_registered)
    as (l1 & l2 & E & _ & Hd & _).
  exists l1, l2. auto.
Defined.

Lemma create_then_list_all_witness :
  registered db "mchen"
  /\ is_Some (Strptime.strptime "2099-12-24")
  /\ find_one (HexId id_new) (announcements_collection db) = None
  /\ registered db "mrodriguez"
  /\ exists created db' listing,
       create_announcement now (HexId id_new) "mchen" "Winter break" "2099-12-24"
         (Some "2099-12-01") db = (Returns created, db')
       /\ _id created = id_new
       /\ fields created !! "created_by" = Some "mchen"
       /\ fields created !! "created_at" = Some now
       /\ get_all_announcements "mrodriguez" db' = (Returns listing, db')
       /\ In created listing.
Proof.
  assert (He : is_Some (Strptime.strptime "2099-12-24")) by (vm_compute; eauto).
  assert (Hs : truthy (Some "2099-12-01") = true ->
               is_Some (Strptime.strptime (default "" (Some "2099-12-01"))))
    by (intros _; vm_compute; eauto).
  assert (Hl : registered db "mrodriguez") by (eexists; reflexivity).
  split; [exact sample_registered|]. split; [exact He|]. split; [exact sample_fresh|].
  split; [exact Hl|].
  destruct (create_then_list_all db now (HexId id_new) "mchen" "Winter break"
              "2099-12-24" (Some "2099-12-01") "mrodriguez" sample_registered He Hs
              sample_fresh Hl)
    as (created & db' & listing & Hc & Hid & Hby & Hat & _ & _ & _ & Hall & Hin).
  exists created, db', listing. auto 10.
Defined.

Lemma empty_start_date_is_absent_witness :
  registered db "mchen"
  /\ is_Some (Strptime.strptime "2099-07-01")
  /\ (exists created,
        create_announcement now (HexId id_new) "mchen" "Fair" "2099-07-01" (Some "") db
        = (Returns created,
           Database (announcements_collection db ++
                       [Document (HexId id_new) (fields created)])
                    (teachers_collection db))
        /\ fields created !! "start_date" = None)
  /\ (exists new db',
        update_announcement now id1 "mchen" "Fair" "2099-07-01" (Some "") db
        = (Returns (str_id new), db')
        /\ fields new !! "start_date" = None
        /\ find_one (HexId id1) (announcements_collection db') = Some new)
  /\ (exists result,
        get_active_announcements "2024-10-15" db = (Returns result, db)
        /\ In (str_id doc3) result).
Proof.
  assert (He : is_Some (Strptime.strptime "2099-07-01")) by (vm_compute; eauto).
  split; [exact sample_registered|]. split; [exact He|].
  destruct (empty_start_date_is_absent db now "mchen" "Fair" "2099-07-01"
              sample_registered He) as (_ & Hc & Hu & Ha).
  split; [exact (Hc (HexId id_new) sample_fresh)|].
  split; [exact (Hu id1 (HexId id1) doc1 sample_id1 sample_doc1)|].
  apply (Ha "2024-10-15" doc3 "2099-01-01").
  - right. right. left. reflexivity.
  - reflexivity.
  - reflexivity.
  - exact I.
Defined.

Lemma error_precedence_witness :
  ~ registered db "nobody"
  /\ registered db "mchen"
  /\ @ObjectId_of_str hex_id _ "not-an-id" = None
  /\ update_announcement now "not-an-id" "nobody" "Fair" "13/2023" None db
     = (Raises (HTTPException 401 "Authentication required"), db)
  /\ update_announcement now "not-an-id" "mchen" "Fair" "13/2023" None db
     = (Raises (HTTPException 400 "Invalid announcement ID"), db)
  /\ delete_announcement "not-an-id" "mchen" db
     = (Raises (HTTPException 400 "Invalid announcement ID"), db).
Proof.
  split; [exact sample_unregistered|]. split; [exact sample_registered|].
  split; [exact sample_not_an_id|].
  split.
  - exact (proj1 (proj1 (error_precedence db now "not-an-id" "nobody" "Fair" "13/2023"
                           None) sample_unregistered)).
  - exact (proj1 (proj2 (error_precedence db now "not-an-id" "mchen" "Fair" "13/2023"
                           None)) sample_registered sample_not_an_id).
Defined.

Lemma create_accepts_unpadded_date_witness :
  registered db "mchen"
  /\ find_one (HexId id_new) (announcements_collection db) = None
  /\ exists created db' result,
       create_announcement now (HexId id_new) "mchen" "Fair" "2024-9-1" None db
       = (Returns created, db')
       /\ get_active_announcements "2024-10-15" db' = (Returns result, db')
       /\ In created result.
Proof.
  split; [exact sample_registered|]. split; [exact sample_fresh|].
  destruct (create_accepts_unpadded_date db now (HexId id_new) "mchen" "Fair"
              sample_registered sample_fresh)
    as (_ & _ & created & db' & Hc & _ & _ & result & Hr & Hin).
  exists created, db', result. auto.
Defined.

End SampleRuns.

(** ** More runs on the sample database *)

Section MoreSampleRuns.

Import Sample.

Lemma sample_id2 : ObjectId_of_str id2 = Some (HexId id2).
Proof. reflexivity. Qed.

Lemma sample_doc2 : find_one (HexId id2) (announcements_collection db) = Some doc2.
Proof. reflexivity. Qed.

Lemma sample_id_new : ObjectId_of_str id_new = Some (HexId id_new).
Proof. reflexivity. Qed.

Lemma sample_unique : unique_ids db.
Proof.
  unfold unique_ids. simpl.
  repeat (apply NoDup_cons; split;
          [rewrite ?not_elem_of_cons; repeat split; try discriminate;
           apply not_elem_of_nil|]).
  apply NoDup_nil_2.
Qed.

Lemma update_with_start_date_witness :
  registered db "mchen"
  /\ ObjectId_of_str id1 = Some (HexId id1)
  /\ find_one (HexId id1) (announcements_collection db) = Some doc1
  /\ is_Some (Strptime.strptime "2099-07-01")
  /\ "2099-02-01" <> ""
  /\ is_Some (Strptime.strptime "2099-02-01")
  /\ exists new db',
       update_announcement now id1 "mchen" "Exam week moved" "2099-07-01"
         (Some "2099-02-01") db = (Returns (str_id new), db')
       /\ fields new !! "start_date" = Some "2099-02-01"
       /\ fields new !! "created_by" = fields doc1 !! "created_by".
Proof.
  assert (He : is_Some (Strptime.strptime "2099-07-01")) by (vm_compute; eauto).
  assert (Hs : is_Some (Strptime.strptime "2099-02-01")) by (vm_compute; eauto).
  assert (Hne : "2099-02-01" <> "") by discriminate.
  split; [exact sample_registered|]. split; [exact sample_id1|].
  split; [exact sample_doc1|]. split; [exact He|]. split; [exact Hne|].
  split; [exact Hs|].
  destruct (update_with_start_date db now id1 "mchen" "Exam week moved" "2099-07-01"
              "2099-02-01" (HexId id1) doc1 sample_registered sample_id1 sample_doc1
              He Hne Hs)
    as (new & db' & Hu & _ & Hst & _ & _ & _ & _ & Hk & _).
  exists new, db'. split; [exact Hu|]. split; [exact Hst|].
  apply Hk. simpl. intros [H|[H|[H|[H|[H|[]]]]]]; discriminate H.
Defined.

Lemma update_not_found_witness :
  registered db "mchen"
  /\ ObjectId_of_str id_new = Some (HexId id_new)
  /\ is_Some (Strptime.strptime "2099-07-01")
  /\ find_one (HexId id_new) (announcements_collection db) = None
  /\ update_announcement now id_new "mchen" "Fair" "2099-07-01" None db
     = (Raises (HTTPException 404 "Announcement not found"), db).
Proof.
  assert (He : is_Some (Strptime.strptime "2099-07-01")) by (vm_compute; eauto).
  split; [exact sample_registered|]. split; [exact sample_id_new|].
  split; [exact He|]. split; [exact sample_fresh|].
  apply (update_not_found db now id_new "mchen" "Fair" "2099-07-01" None (HexId id_new)
           sample_registered sample_id_new He); [discriminate | exact sample_fresh].
Defined.

Lemma update_invalid_expiration_unchanged_witness :
  ascii_only "13/2023" = true
  /\ Strptime.strptime "13/2023" = None
  /\ registered db "mchen"
  /\ is_Some (ObjectId_of_str id1)
  /\ update_announcement now id1 "mchen" "Exam week moved" "13/2023" None db
     = (Raises (HTTPException 400 "Invalid expiration_date format. Use YYYY-MM-DD"), db).
Proof.
  assert (Ha : ascii_only "13/2023" = true) by reflexivity.
  assert (Hb : Strptime.strptime "13/2023" = None) by reflexivity.
  assert (Hi : is_Some (ObjectId_of_str id1)) by (eexists; reflexivity).
  split; [exact Ha|]. split; [exact Hb|]. split; [exact sample_registered|].
  split; [exact Hi|].
  exact (proj2 (proj2 (update_invalid_expiration_unchanged db now id1 "mchen"
                         "Exam week moved" "13/2023" None Ha Hb)) sample_registered Hi).
Defined.

Lemma create_date_errors_witness :
  registered db "mchen"
  /\ ascii_only "13/2023" = true
  /\ Strptime.strptime "13/2023" = None
  /\ ascii_only "soon" = true
  /\ Strptime.strptime "soon" = None
  /\ create_announcement now (HexId id_new) "mchen" "Fair" "13/2023" (Some "soon") db
     = (Raises (HTTPException 400 "Invalid expiration_date format. Use YYYY-MM-DD"), db)
  /\ create_announcement now (HexId id_new) "mchen" "Fair" "2099-07-01" (Some "soon") db
     = (Raises (HTTPException 400 "Invalid start_date format. Use YYYY-MM-DD"), db).
Proof.
  assert (Ha : ascii_only "13/2023" = true) by reflexivity.
  assert (Hb : Strptime.strptime "13/2023" = None) by reflexivity.
  assert (Has : ascii_only "soon" = true) by reflexivity.
  assert (Hbs : Strptime.strptime "soon" = None) by reflexivity.
  assert (He : is_Some (Strptime.strptime "2099-07-01")) by (vm_compute; eauto).
  split; [exact sample_registered|]. split; [exact Ha|]. split; [exact Hb|].
  split; [exact Has|]. split; [exact Hbs|]. split.
  - exact (proj1 (create_date_errors db now (HexId id_new) "mchen" "Fair" "13/2023"
                    (Some "soon") sample_registered) Ha Hb).
  - exact (proj1 (proj2 (create_date_errors db now (HexId id_new) "mchen" "Fair"
                           "2099-07-01" (Some "soon") sample_registered))
             He eq_refl Has Hbs).
Defined.

Lemma update_invalid_start_date_unchanged_witness :
  registered db "mchen"
  /\ ObjectId_of_str id1 = Some (HexId id1)
  /\ is_Some (Strptime.strptime "2099-07-01")
  /\ "soon" <> ""
  /\ ascii_only "soon" = true
  /\ Strptime.strptime "soon" = None
  /\ update_announcement now id1 "mchen" "Fair" "2099-07-01" (Some "soon") db
     = (Raises (HTTPException 400 "Invalid start_date format. Use YYYY-MM-DD"), db).
Proof.
  assert (He : is_Some (Strptime.strptime "2099-07-01")) by (vm_compute; eauto).
  assert (Hne : "soon" <> "") by discriminate.
  assert (Ha : ascii_only "soon" = true) by reflexivity.
  assert (Hb : Strptime.strptime "soon" = None) by reflexivity.
  split; [exact sample_registered|]. split; [exact sample_id1|]. split; [exact He|].
  split; [exact Hne|]. split; [exact Ha|]. split; [exact Hb|].
  exact (update_invalid_start_date_unchanged db now id1 "mchen" "Fair" "2099-07-01" "soon"
           (HexId id1) sample_registered sample_id1 He Hne Ha Hb).
Defined.

Lemma list_all_stable_witness :
  registered db "mchen"
  /\ exists result,
       get_all_announcements "mchen" db = (Returns result, db)
       /\ List.filter (fun y => String.eqb (expiration_key y) "2099-01-01") result
          = [str_id doc3].
Proof.
  split; [exact sample_registered|].
  destruct (list_all_stable db "mchen" sample_registered) as (result & Hr & Hk).
  exists result. split; [exact Hr|]. rewrite (Hk "2099-01-01"). reflexivity.
Defined.

Lemma delete_then_gone_witness :
  registered db "mchen"
  /\ ObjectId_of_str id2 = Some (HexId id2)
  /\ find_one (HexId id2) (announcements_collection db) = Some doc2
  /\ unique_ids db
  /\ exists db',
       delete_announcement id2 "mchen" db
       = (Returns {[ "message" := "Announcement deleted successfully" ]}, db')
       /\ delete_announcement id2 "mchen" db'
          = (Raises (HTTPException 404 "Announcement not found"), db').
Proof.
  split; [exact sample_registered|]. split; [exact sample_id2|].
  split; [exact sample_doc2|]. split; [exact sample_unique|].
  destruct (delete_then_gone db id2 "mchen" (HexId id2) doc2 sample_registered sample_id2
              sample_doc2 sample_unique) as (db' & Hd & _ & _ & Hd' & _).
  exists db'. auto.
Defined.

Lemma create_then_delete_witness :
  registered db "mchen"
  /\ is_Some (Strptime.strptime "2099-12-24")
  /\ find_one (HexId id_new) (announcements_collection db) = None
  /\ ObjectId_of_str (str_of_ObjectId (HexId id_new)) = Some (HexId id_new)
  /\ exists created db',
       create_announcement now (HexId id_new) "mchen" "Winter break" "2099-12-24" None db
       = (Returns created, db')
       /\ delete_announcement (_id created) "mchen" db'
          = (Returns {[ "message" := "Announcement deleted successfully" ]}, db).
Proof.
  assert (He : is_Some (Strptime.strptime "2099-12-24")) by (vm_compute; eauto).
  split; [exact sample_registered|]. split; [exact He|]. split; [exact sample_fresh|].
  split; [exact sample_id_new|].
  apply (create_then_delete db now (HexId id_new) "mchen" "Winter break" "2099-12-24" None
           sample_registered He); [discriminate | exact sample_fresh | exact sample_id_new].
Defined.

Lemma create_then_list_active_witness :
  registered db "mchen"
  /\ is_Some (Strptime.strptime "2099-06-01")
  /\ find_one (HexId id_new) (announcements_collection db) = None
  /\ exists created db',
       create_announcement now (HexId id_new) "mchen" "Summer fair" "2099-06-01"
         (Some "2099-01-01") db = (Returns created, db')
       /\ get_active_announcements "2024-10-15" db' = (Returns [str_id doc3], db')
       /\ get_active_announcements "2099-03-01" db'
          = (Returns [str_id doc1; created], db').
Proof.
  assert (He : is_Some (Strptime.strptime "2099-06-01")) by (vm_compute; eauto).
  assert (Hs : truthy (Some "2099-01-01") = true ->
               is_Some (Strptime.strptime (default "" (Some "2099-01-01"))))
    by (intros _; vm_compute; eauto).
  split; [exact sample_registered|]. split; [exact He|]. split; [exact sample_fresh|].
  destruct (create_then_list_active db now (HexId id_new) "mchen" "Summer fair"
              "2099-06-01" (Some "2099-01-01") sample_registered He Hs sample_fresh)
    as (created & db' & Hc & Hl).
  exists created, db'. split; [exact Hc|]. split.
  - destruct (Hl "2024-10-15") as (before & Hb & Ha). rewrite Ha.
    rewrite get_active_announcements_eq in Hb. injection Hb as <-. reflexivity.
  - destruct (Hl "2099-03-01") as (before & Hb & Ha). rewrite Ha.
    rewrite get_active_announcements_eq in Hb. injection Hb as <-. reflexivity.
Defined.

Lemma active_subset_all_witness :
  registered db "mchen"
  /\ exists active all,
       get_active_announcements "2024-10-15" db = (Returns active, db)
       /\ get_all_announcements "mchen" db = (Returns all, db)
       /\ (forall r, In r active -> In r all).
Proof.
  split; [exact sample_registered|].
  destruct (active_subset_all db "mchen" "2024-10-15" sample_registered)
    as (active & all & Ha & Hl & Hsub & _).
  exists active, all. auto.
Defined.

Lemma date_length_bounds_witness :
  registered db "mchen"
  /\ ObjectId_of_str id1 = Some (HexId id1)
  /\ ascii_only "2099-07-01T10:00:00" = true
  /\ (String.length "2099-07-01T10:00:00" < 8
      \/ 10 < String.length "2099-07-01T10:00:00")%nat
  /\ create_announcement now (HexId id_new) "mchen" "Fair" "2099-07-01T10:00:00" None db
     = (Raises (HTTPException 400 "Invalid expiration_date format. Use YYYY-MM-DD"), db)
  /\ update_announcement now id1 "mchen" "Fair" "2099-07-01T10:00:00" None db
     = (Raises (HTTPException 400 "Invalid expiration_date format. Use YYYY-MM-DD"), db).
Proof.
  assert (Hl : (String.length "2099-07-01T10:00:00" < 8
                \/ 10 < String.length "2099-07-01T10:00:00")%nat)
    by (right; simpl; lia).
  assert (Ha : ascii_only "2099-07-01T10:00:00" = true) by reflexivity.
  split; [exact sample_registered|]. split; [exact sample_id1|]. split; [exact Ha|].
  split; [exact Hl|].
  exact (date_length_bounds db now (HexId id_new) id1 (HexId id1) "mchen" "Fair"
           "2099-07-01T10:00:00" None sample_registered sample_id1 Ha Hl).
Defined.

Lemma create_accepts_exact_dates_witness :
  registered db "mchen"
  /\ find_one (HexId id_new) (announcements_collection db) = None
  /\ exact_YYYY_MM_DD "2099-12-24" = true
  /\ exact_YYYY_MM_DD "2099-12-01" = true
  /\ exists created,
       create_announcement now (HexId id_new) "mchen" "Winter break" "2099-12-24"
         (Some "2099-12-01") db
       = (Returns created,
          Database (announcements_collection db ++
                      [Document (HexId id_new) (fields created)])
                   (teachers_collection db))
       /\ fields created !! "start_date" = Some "2099-12-01".
Proof.
  assert (He : exact_YYYY_MM_DD "2099-12-24" = true) by reflexivity.
  assert (Hs : exact_YYYY_MM_DD "2099-12-01" = true) by reflexivity.
  split; [exact sample_registered|]. split; [exact sample_fresh|].
  split; [exact He|]. split; [exact Hs|].
  destruct (create_accepts_exact_dates db now (HexId id_new) "mchen" "Winter break"
              "2099-12-24" "2099-12-01" sample_registered sample_fresh He Hs)
    as (created & Hc & _ & _ & Hst).
  exists created. auto.
Defined.

Lemma update_then_list_active_witness :
  registered db "mchen"
  /\ ObjectId_of_str id1 = Some (HexId id1)
  /\ find_one (HexId id1) (announcements_collection db) = Some doc1
  /\ is_Some (Strptime.strptime "2020-01-01")
  /\ exists new db',
       update_announcement now id1 "mchen" "Exam week is over" "2020-01-01" None db
       = (Returns (str_id new), db')
       /\ get_active_announcements "2099-03-01" db = (Returns [str_id doc1], db)
       /\ get_active_announcements "2099-03-01" db' = (Returns [], db').
Proof.
  assert (He : is_Some (Strptime.strptime "2020-01-01")) by (vm_compute; eauto).
  split; [exact sample_registered|]. split; [exact sample_id1|].
  split; [exact sample_doc1|]. split; [exact He|].
  destruct (update_then_list_active db now id1 "mchen" "Exam week is over" "2020-01-01"
              None (HexId id1) doc1 sample_registered sample_id1 sample_doc1 He)
    as (new & db' & Hu & Hl); [discriminate|].
  exists new, db'. split; [exact Hu|].
  split; [now rewrite get_active_announcements_eq|].
  destruct (Hl "2099-03-01") as (before & after & Hb & Ha).
  rewrite Ha. rewrite get_active_announcements_eq in Hb.
  injection Hb as Hb. f_equal.
  change (List.map str_id (List.filter (active_at "2099-03-01")
            (announcements_collection db))) with [str_id doc1] in Hb.
  change (active_at "2099-03-01" doc1) with true in Hb.
  destruct before as [|b before]; [|destruct before; discriminate Hb].
  destruct after as [|c after]; [reflexivity | discriminate Hb].
Defined.

End MoreSampleRuns.
